(** * etl_noaa: the NOAA fetch, checkpoint and pivot pipeline

    A shallow embedding of [etl_noaa.py].  The HTTP endpoint, the console,
    the clock and the file system are made explicit: every function that
    touches one of them is a computation over a [world], and an uncaught
    Python exception is a [Raise] result.  The [while] loop of the paginated
    fetch is unbounded in the source and is run here with a fuel counter. *)

From Stdlib Require Import ZArith QArith List String Ascii DecimalString Lia.
From stdpp Require Import gmap strings list fin_maps.

Open Scope Z_scope.

(** ** The parts of the Python library the script relies on *)

Module Py.

(** [str(n)] and the [{n}] placeholder of an f-string, for an [int]. *)
Definition str (n : Z) : string := NilZero.string_of_int (Z.to_int n).

Fixpoint zeros (k : nat) : string :=
  match k with
  | O => EmptyString
  | S k' => String "0" (zeros k')
  end.

Definition zfill (width : nat) (digits : string) : string :=
  zeros (width - String.length digits) +:+ digits.

(** The [{n:02d}] placeholder: sign-aware zero padding to width 2. *)
Definition format_02d (n : Z) : string :=
  let digits := NilZero.string_of_uint (N.to_uint (Z.abs_N n)) in
  if n <? 0 then "-" +:+ zfill 1 digits else zfill 2 digits.

(** [range(a, b)]: empty when [b <= a]. *)
Definition range (a b : Z) : list Z :=
  map (fun i : nat => a + Z.of_nat i) (seq 0 (Z.to_nat (b - a))).

(** [calendar.mdays], [calendar.isleap] and the day count that
    [calendar.monthrange(year, month)] returns as its second component;
    [None] is its [IllegalMonthError]. *)
Definition mdays : list Z := [0; 31; 28; 31; 30; 31; 30; 31; 31; 30; 31; 30; 31].

Definition February : Z := 2.

Definition isleap (year : Z) : bool :=
  (year mod 4 =? 0) && (negb (year mod 100 =? 0) || (year mod 400 =? 0)).

Definition monthrange_ndays (year month : Z) : option Z :=
  if (1 <=? month) && (month <=? 12)
  then Some (nth (Z.to_nat month) mdays 0
             + (if (month =? February) && isleap year then 1 else 0))
  else None.

(** [posixpath.join] and [posixpath.dirname]. *)
Definition is_sep (c : ascii) : bool := Ascii.eqb c "/".

Definition startswith_sep (s : string) : bool :=
  match s with
  | String c _ => is_sep c
  | EmptyString => false
  end.

Fixpoint endswith_sep (s : string) : bool :=
  match s with
  | EmptyString => false
  | String c EmptyString => is_sep c
  | String _ s' => endswith_sep s'
  end.

Definition join2 (path b : string) : string :=
  if startswith_sep b then b
  else if String.eqb path "" || endswith_sep path then path +:+ b
  else path +:+ "/" +:+ b.

Definition join (a : string) (p : list string) : string := fold_left join2 p a.

Fixpoint drop_seps (l : list ascii) : list ascii :=
  match l with
  | c :: l' => if is_sep c then drop_seps l' else l
  | [] => []
  end.

Fixpoint drop_basename (l : list ascii) : list ascii :=
  match l with
  | c :: l' => if is_sep c then l else drop_basename l'
  | [] => []
  end.

Definition dirname (p : string) : string :=
  let head := drop_basename (rev (list_ascii_of_string p)) in
  let head' := match drop_seps head with
               | [] => head
               | stripped => stripped
               end in
  string_of_list_ascii (rev head').

(** How a path handed to [open] or [os.path.isfile] is resolved against
    the working directory ([..] and symbolic links are not modelled). *)
Definition abspath (cwd p : string) : string := join2 cwd p.

End Py.

(** ** Data model *)

(** One element of the [results] array of the API.  [obs_value = None] is a
    null reading, which [astype(float)] turns into NaN. *)
Record ObservationRecord := {
  obs_date : string;
  obs_datatype : string;
  obs_station : string;
  obs_value : option Q
}.

(** A row of the per-year and combined tables: a record plus the [year]
    column that [fetch_year] adds. *)
Record row := {
  row_obs : ObservationRecord;
  row_year : Z
}.

(** The varying entries of the [params] dict; [datasetid], [locationid],
    [datatypeid] and [units] are constants of every request. *)
Record params := {
  startdate : string;
  enddate : string;
  limit : Z;
  offset : Z
}.

(** [metadata.resultset] of a reply; an absent key is [None]. *)
Record resultset := {
  rs_offset : option Z;
  rs_limit : option Z;
  rs_count : option Z
}.

(** The decoded JSON body. [p_resultset = None] stands for a body without
    [metadata] or without [metadata.resultset]. *)
Record payload := {
  p_results : option (list ObservationRecord);
  p_resultset : option resultset
}.

Record response := {
  status_code : Z;
  text : string;
  json : payload
}.

(** What [requests.get] does: it returns a response or raises a
    [RequestException], which carries a message. *)
Inductive http_outcome :=
| Responded (r : response)
| RequestException (msg : string).

(** The endpoint: its answer to the [n]-th GET of the run ([n] counts from
    0), given the query parameters.  [BASE_URL], the token header and the
    60 s time-out are the same for every call and are part of the oracle. *)
Definition server := nat -> params -> http_outcome.

Inductive event :=
| EGet (p : params)
| ESleep (secs : Q)
| EPrint (msg : string)
| EPrintHead (rows : list ObservationRecord)
| ELog (msg : string).

(** [files] maps an absolute path to the table its CSV holds; [script_file]
    is the value of [__file__]. *)
Record world := {
  gets : nat;
  trace : list event;
  cwd : string;
  script_file : string;
  files : gmap string (list row)
}.

Inductive exn :=
| AttributeError
| TypeError
| IllegalMonthError
| FileNotFoundError.

Inductive result (A : Type) :=
| Ok (a : A)
| Raise (e : exn)
| OutOfFuel.

Arguments Ok {A} a.
Arguments Raise {A} e.
Arguments OutOfFuel {A}.

(** ** Computations over the world *)

Definition M (A : Type) : Type := world -> result A * world.

Definition ret {A} (a : A) : M A := fun w => (Ok a, w).

Definition raise {A} (e : exn) : M A := fun w => (Raise e, w).

Definition out_of_fuel {A} : M A := fun w => (OutOfFuel, w).

Definition bind {A B} (m : M A) (k : A -> M B) : M B :=
  fun w =>
    match m w with
    | (Ok a, w') => k a w'
    | (Raise e, w') => (Raise e, w')
    | (OutOfFuel, w') => (OutOfFuel, w')
    end.

Notation "'let*' x ':=' m 'in' k" := (bind m (fun x => k))
  (at level 10, x name, m at level 100, k at level 200).
Notation "m ';;' k" := (bind m (fun _ => k))
  (at level 100, k at level 200, right associativity).

Definition lift {A} (r : result A) : M A := fun w => (r, w).

Definition emit (e : event) : M unit :=
  fun w => (Ok tt, {| gets := gets w; trace := trace w ++ [e]; cwd := cwd w;
                      script_file := script_file w; files := files w |}).

Definition print (msg : string) : M unit := emit (EPrint msg).

Definition sleep (secs : Q) : M unit := emit (ESleep secs).

(** [requests.get(BASE_URL, headers=headers, params=params, timeout=60)]. *)
Definition requests_get (srv : server) (p : params) : M http_outcome :=
  fun w => (Ok (srv (gets w) p),
            {| gets := S (gets w); trace := trace w ++ [EGet p]; cwd := cwd w;
               script_file := script_file w; files := files w |}).

(** [df.to_csv(path, index=False)]. *)
Definition to_csv (df : list row) (path : string) : M unit :=
  fun w => (Ok tt, {| gets := gets w; trace := trace w; cwd := cwd w;
                      script_file := script_file w;
                      files := <[Py.abspath (cwd w) path := df]> (files w) |}).

Definition isfile (path : string) : M bool :=
  fun w => (Ok (bool_decide (is_Some (files w !! Py.abspath (cwd w) path))), w).

Definition read_csv (path : string) : M (list row) :=
  fun w => match files w !! Py.abspath (cwd w) path with
           | Some df => (Ok df, w)
           | None => (Raise FileNotFoundError, w)
           end.

(** ** Module constants *)

Definition output_csv_name : string := "new_york_weather_1974_2024.csv".

Definition BASE_DIR : M string := fun w => (Ok (Py.dirname (script_file w)), w).

Definition FILE_PATH : M string :=
  let* base := BASE_DIR in
  ret (Py.join base ["data"; "new_york_weather_1974_2024.csv"]%string).

Definition log_progress (message : string) : M unit := emit (ELog message).

(** ** 4.1 make_request *)

Definition error_message (r : response) : string :=
  "Error with status code " +:+ Py.str (status_code r) +:+ ": " +:+ text r.

(** The body of [for attempt in range(retries)], over the attempts still
    to run, followed by the code after the loop. *)
Fixpoint make_request_from (srv : server) (p : params) (backoff : Z)
    (attempts : list Z) : M (option response) :=
  match attempts with
  | [] => print "Max retries exceeded.";; ret None
  | attempt :: rest =>
      let* got := requests_get srv p in
      match got with
      | Responded r =>
          if status_code r =? 200 then ret (Some r)
          else if status_code r =? 503 then
            let wait := backoff ^ attempt in
            sleep (inject_Z wait);;
            make_request_from srv p backoff rest
          else if status_code r =? 429 then
            print (error_message r);;
            ret None
          else
            print (error_message r);;
            make_request_from srv p backoff rest
      | RequestException e =>
          print ("Request error: " +:+ e);;
          sleep (inject_Z (backoff ^ attempt));;
          make_request_from srv p backoff rest
      end
  end.

Definition make_request (srv : server) (p : params) (retries backoff : Z)
  : M (option response) :=
  make_request_from srv p backoff (Py.range 0 retries).

Definition default_retries : Z := 5.
Definition default_backoff : Z := 2.

(** ** 4.2 get_temp_vals_by_dates *)

Definition initial_params (start end_ : string) : params :=
  {| startdate := start; enddate := end_; limit := 1000; offset := 1 |}.

Definition failed_message (start end_ : string) (r : response) : string :=
  "Failed to retrieve request for startdate-enddate " +:+ start +:+ "-" +:+ end_
  +:+ ": with status code " +:+ Py.str (status_code r).

Definition progress_message (offset len total : Z) : string :=
  "  - " +:+ Py.str (Z.min (offset + len) total) +:+ " / " +:+ Py.str total
  +:+ " records".

(** [while has_more: ...] followed by the code after the loop; one unit of
    fuel per iteration.  Reading [response.status_code] when [make_request]
    returned [None] is an [AttributeError]. *)
Fixpoint pagination_loop (fuel : nat) (srv : server) (start end_ : string)
    (p : params) (results : list ObservationRecord)
  : M (list ObservationRecord) :=
  match fuel with
  | O => out_of_fuel
  | S fuel' =>
      let* response := make_request srv p default_retries default_backoff in
      match response with
      | None => raise AttributeError
      | Some r =>
          if negb (status_code r =? 200) then
            print (failed_message start end_ r);;
            ret results
          else
            print "had a valid request";;
            let data := json r in
            let batch := default [] (p_results data) in
            let results := results ++ batch in
            let meta := default {| rs_offset := None; rs_limit := None;
                                   rs_count := None |} (p_resultset data) in
            let offset_ := default 0 (rs_offset meta) in
            let limit_ := default 0 (rs_limit meta) in
            let total := default 0 (rs_count meta) in
            print (progress_message offset_ (Z.of_nat (length batch)) total);;
            if offset_ + limit_ >=? total then
              emit (EPrintHead (firstn 5 results));;
              ret results
            else
              let p := {| startdate := startdate p; enddate := enddate p;
                          limit := limit p; offset := offset p + limit_ |} in
              sleep (1 # 5);;
              pagination_loop fuel' srv start end_ p results
      end
  end.

Definition get_temp_vals_by_dates (fuel : nat) (srv : server)
    (start end_ : string) : M (list ObservationRecord) :=
  pagination_loop fuel srv start end_ (initial_params start end_) [].

(** ** 4.3 generate_date_ranges *)

Definition date_string (year month day : Z) : string :=
  Py.str year +:+ "-" +:+ Py.format_02d month +:+ "-" +:+ Py.format_02d day.

Definition first_of_month (year month : Z) : string :=
  Py.str year +:+ "-" +:+ Py.format_02d month +:+ "-01".

(** The body of [for month in ...], over the months still to visit. *)
Fixpoint date_ranges_from (year : Z) (todo : list Z)
    (months : list (string * string)) : result (list (string * string)) :=
  match todo with
  | [] => Ok months
  | month :: rest =>
      match Py.monthrange_ndays year month with
      | None => Raise IllegalMonthError
      | Some days =>
          date_ranges_from year rest
            (months ++ [(first_of_month year month, date_string year month days)])
      end
  end.

Definition generate_date_ranges (year : Z) : result (list (string * string)) :=
  date_ranges_from year (Py.range 1 13) [].

(** ** 4.4 fetch_year and extract *)

Definition tag_year (year : Z) (df : list ObservationRecord) : list row :=
  map (fun o => {| row_obs := o; row_year := year |}) df.

(** [df.empty] for a frame built from records that all carry the same
    columns: no rows. *)
Definition empty {A} (df : list A) : bool :=
  match df with
  | [] => true
  | _ :: _ => false
  end.

Fixpoint fetch_months (fuel : nat) (srv : server) (year : Z)
    (months : list (string * string)) (dfs : list (list row))
  : M (list (list row)) :=
  match months with
  | [] => ret dfs
  | (start, end_) :: rest =>
      let* df_month := get_temp_vals_by_dates fuel srv start end_ in
      let dfs := if negb (empty df_month) then dfs ++ [tag_year year df_month]
                 else dfs in
      sleep (1 # 2);;
      fetch_months fuel srv year rest dfs
  end.

Definition fetch_year (fuel : nat) (srv : server) (year : Z) : M (list row) :=
  let* months := lift (generate_date_ranges year) in
  let* dfs := fetch_months fuel srv year months [] in
  if negb (empty dfs) then ret (concat dfs)
  else
    print ("No data return for " +:+ Py.str year);;
    ret [].

Fixpoint extract_years (fuel : nat) (srv : server) (years : list Z)
    (all_years : list (list row)) : M (list (list row)) :=
  match years with
  | [] => ret all_years
  | year :: rest =>
      let* df_year := fetch_year fuel srv year in
      let all_years := if negb (empty df_year) then all_years ++ [df_year]
                       else all_years in
      extract_years fuel srv rest all_years
  end.

(** The returned [None] is Python's: the [else] branch ends without a
    [return]. *)
Definition extract (fuel : nat) (srv : server) (start_year end_year : Z)
  : M (option (list row)) :=
  let* all_years := extract_years fuel srv (Py.range start_year end_year) [] in
  if negb (empty all_years) then
    let df_all := concat all_years in
    to_csv df_all output_csv_name;;
    print "Saved records!";;
    ret (Some df_all)
  else
    print "Failed to save data";;
    ret None.

(** ** 4.5 The pivot of transform *)

Definition row_key (r : row) : string * string * Z :=
  (obs_date (row_obs r), obs_station (row_obs r), row_year r).

(** One step of [pivot_table(index=["date", "station", "year"],
    columns="datatype", values="value", aggfunc="first")]: pandas' [first]
    takes, per group, the first value that is not null, and a group without
    any value gives no cell. *)
Definition put_first (t : gmap (string * string * Z) (gmap string Q)) (r : row)
  : gmap (string * string * Z) (gmap string Q) :=
  match obs_value (row_obs r) with
  | None => t
  | Some v =>
      let cells := default ∅ (t !! row_key r) in
      match cells !! obs_datatype (row_obs r) with
      | Some _ => t
      | None => <[row_key r := <[obs_datatype (row_obs r) := v]> cells]> t
      end
  end.

(** The wide table, as the map from its index [(date, station, year)] to the
    datatype columns of that row (the order of the rows is not modelled). *)
Definition pivot_table (df : list row) : gmap (string * string * Z) (gmap string Q) :=
  fold_left put_first df ∅.

Definition cell (t : gmap (string * string * Z) (gmap string Q))
    (k : string * string * Z) (dt : string) : option Q :=
  t !! k ≫= fun cells => cells !! dt.

(** [transform]: subscripting [None] is a [TypeError].  The summaries, the
    regression and the charts are floating-point work on [df_pivot] and are
    left out; the function returns the long table it was given. *)
Definition transform (df : option (list row)) : M (list row) :=
  match df with
  | None => raise TypeError
  | Some df => ret df
  end.

(** ** The module-level driver *)

Definition startup (fuel : nat) (srv : server) : M (option (list row)) :=
  log_progress "Preliminaries complete. Initiating ETL process.";;
  let* path := FILE_PATH in
  let* present := isfile path in
  if negb present then
    log_progress "No CSV available...extracting the data";;
    extract fuel srv 1974 2024
  else
    log_progress "CSV available...utilizing previous CSV";;
    let* df := read_csv path in
    ret (Some df).

Definition script (fuel : nat) (srv : server) : M (list row) :=
  let* df := startup fuel srv in
  log_progress "Data extraction complete. Initiating Transformation process.";;
  let* df := transform df in
  log_progress "Data transformation complete. Initiating loading process.";;
  log_progress "Data saved to CSV file.";;
  ret df.

(** * Vocabulary of the statements *)

(** The world after [n] more GETs and the events [evs]. *)
Definition advance (n : nat) (evs : list event) (w : world) : world :=
  {| gets := n + gets w; trace := trace w ++ evs; cwd := cwd w;
     script_file := script_file w; files := files w |}.

(** The world after [df.to_csv(path, index=False)]. *)
Definition with_csv (path : string) (df : list row) (w : world) : world :=
  {| gets := gets w; trace := trace w; cwd := cwd w; script_file := script_file w;
     files := <[Py.abspath (cwd w) path := df]> (files w) |}.

Definition status_of (o : http_outcome) : option Z :=
  match o with
  | Responded r => Some (status_code r)
  | RequestException _ => None
  end.

Definition requests_of (tr : list event) : list params :=
  omap (fun e => match e with EGet p => Some p | _ => None end) tr.

(** What [make_request] may hand back: [None], or a response with status
    200; it neither raises nor runs forever. *)
Definition none_or_200 (res : result (option response)) : Prop :=
  match res with
  | Ok None => True
  | Ok (Some r) => status_code r = 200
  | Raise _ => False
  | OutOfFuel => False
  end.

(** What the attempts [attempts] leave in the trace when each is answered
    with a 503. *)
Definition retry_events (p : params) (backoff : Z) (attempts : list Z) : list event :=
  flat_map (fun attempt => [EGet p; ESleep (inject_Z (backoff ^ attempt))]) attempts.

Definition ceil_div (a b : Z) : Z := (a + b - 1) / b.

(** An endpoint that pages faithfully: it echoes the requested offset and
    limit, reports [total] records, and answers every GET with status 200
    and the records [page o] for offset [o]. *)
Definition paging_server (total : Z) (page : Z -> list ObservationRecord) : server :=
  fun _ p =>
    Responded {| status_code := 200; text := "";
                 json := {| p_results := Some (page (offset p));
                            p_resultset := Some {| rs_offset := Some (offset p);
                                                   rs_limit := Some (limit p);
                                                   rs_count := Some total |} |} |}.

Definition request_at (start end_ : string) (o : Z) : params :=
  {| startdate := start; enddate := end_; limit := 1000; offset := o |}.

(** What one answered page leaves in the trace, up to the decision whether
    to go on. *)
Definition page_events (start end_ : string) (o total : Z)
    (batch : list ObservationRecord) : list event :=
  [EGet (request_at start end_ o); EPrint "had a valid request";
   EPrint (progress_message o (Z.of_nat (length batch)) total)].

(** The Gregorian calendar, as a rule: leap years and month lengths. *)
Definition leap_year (year : Z) : Prop :=
  (4 | year) /\ (~ (100 | year) \/ (400 | year)).

Inductive last_day_of_month (year : Z) : Z -> Z -> Prop :=
| long_month month :
    In month [1; 3; 5; 7; 8; 10; 12] -> last_day_of_month year month 31
| short_month month :
    In month [4; 6; 9; 11] -> last_day_of_month year month 30
| february_leap :
    leap_year year -> last_day_of_month year 2 29
| february_common :
    ~ leap_year year -> last_day_of_month year 2 28.

(** The range of one month: from day 01 to the month's last day. *)
Definition month_range (year month : Z) (r : string * string) : Prop :=
  fst r = date_string year month 1
  /\ exists day, last_day_of_month year month day
                 /\ snd r = date_string year month day.

(** The tables of the years [years], fetched one after the other. *)
Fixpoint fetch_all (fuel : nat) (srv : server) (years : list Z) : M (list (list row)) :=
  match years with
  | [] => ret []
  | year :: rest =>
      let* df_year := fetch_year fuel srv year in
      let* others := fetch_all fuel srv rest in
      ret (df_year :: others)
  end.

Definition non_empty {A} (df : list A) : bool := negb (empty df).

(** The absolute path that the driver tests at startup. *)
Definition checkpoint_path (w : world) : string :=
  Py.abspath (cwd w)
    (Py.join (Py.dirname (script_file w)) ["data"; "new_york_weather_1974_2024.csv"]%string).

(** What the driver logs before it calls [extract]. *)
Definition startup_logs : list event :=
  [ELog "Preliminaries complete. Initiating ETL process.";
   ELog "No CSV available...extracting the data"].

(** The value that [first] picks for row [k] and column [dt]: the first
    value, in input order, among the records of that index and datatype. *)
Definition first_value (df : list row) (k : string * string * Z) (dt : string)
  : option Q :=
  head (omap (fun r => if decide (row_key r = k /\ obs_datatype (row_obs r) = dt)
                       then obs_value (row_obs r) else None) df).

(** The pivot invariant with the year left out of the key: per date,
    station and datatype, values in one row only. *)
Definition one_value_per_date_station_datatype
    (t : gmap (string * string * Z) (gmap string Q)) : Prop :=
  forall d s y1 y2 dt v1 v2,
    cell t (d, s, y1) dt = Some v1 ->
    cell t (d, s, y2) dt = Some v2 ->
    y1 = y2.

(** The year column is determined by the date, as it is in the tables
    that [fetch_year] builds from an endpoint answering within the
    requested range. *)
Definition year_follows_date (df : list row) : Prop :=
  forall r1 r2, r1 ∈ df -> r2 ∈ df ->
                obs_date (row_obs r1) = obs_date (row_obs r2) ->
                row_year r1 = row_year r2.

(** Two records of the same date, station and datatype. *)
Definition same_reading_key (r1 r2 : row) : Prop :=
  obs_date (row_obs r1) = obs_date (row_obs r2)
  /\ obs_station (row_obs r1) = obs_station (row_obs r2)
  /\ obs_datatype (row_obs r1) = obs_datatype (row_obs r2).

(** ** Scenarios *)

(** A fresh run from the script's own directory. *)
Definition w0 : world :=
  {| gets := 0; trace := []; cwd := "/home/user/etl_noaa";
     script_file := "/home/user/etl_noaa/etl_noaa.py"; files := ∅ |}.

Definition january_2020 : params := initial_params "2020-01-01" "2020-01-31".

Definition one_record : ObservationRecord :=
  {| obs_date := "2020-01-01T00:00:00"; obs_datatype := "TMAX";
     obs_station := "GHCND:USW00094728"; obs_value := Some (5 # 1)%Q |}.

Definition no_payload : payload := {| p_results := None; p_resultset := None |}.

Definition ok_without_data : response :=
  {| status_code := 200; text := "{}"; json := no_payload |}.

Definition too_many_requests : response :=
  {| status_code := 429; text := "rate limit exceeded"; json := no_payload |}.

(** An endpoint that serves [n] GETs like a faithful one with 1500 records
    and answers 429 from then on. *)
Definition rate_limited_after (n : nat) : server :=
  fun k p =>
    if (k <? n)%nat then paging_server 1500 (fun _ => [one_record]) k p
    else Responded too_many_requests.

(** An endpoint that has one record for every range. *)
Definition one_record_server : server := paging_server 1 (fun _ => [one_record]).

(** An endpoint that has no data at all and answers [{}]. *)
Definition empty_server : server := fun _ _ => Responded ok_without_data.

(** An endpoint that answers 503 twice and 200 from then on. *)
Definition flaky_server : server :=
  fun k _ =>
    if (k <? 2)%nat
    then Responded {| status_code := 503; text := "unavailable"; json := no_payload |}
    else Responded ok_without_data.

(** What [one_record_server] yields for the years 2020 and 2021. *)
Definition two_years_of_one_record : list (list row) :=
  map (fun year => repeat {| row_obs := one_record; row_year := year |} 12)
    [2020; 2021].

(** The first run of the driver, against an endpoint with data. *)
Definition first_run : result (option (list row)) * world :=
  startup 1 one_record_server w0.

Definition reading (d dt s : string) (v : Q) (y : Z) : row :=
  {| row_obs := {| obs_date := d; obs_datatype := dt; obs_station := s;
                   obs_value := Some v |};
     row_year := y |}.

Definition same_reading_two_years : list row :=
  [reading "2020-01-01" "TMAX" "A" (5 # 1) 2020;
   reading "2020-01-01" "TMAX" "A" (7 # 1) 2021].

Definition tmax_twice : list row :=
  [reading "2020-01-01" "TMAX" "A" (5 # 1) 2020;
   reading "2020-01-01" "TMAX" "A" (7 # 1) 2020].

(** ** Vocabulary of the further properties *)

(** [w'] is [w] after some requests and console output: same working
    directory, script and files, no fewer GETs, a longer trace. *)
Definition extends (w w' : world) : Prop :=
  cwd w' = cwd w
  /\ script_file w' = script_file w
  /\ files w' = files w
  /\ (gets w <= gets w')%nat
  /\ exists evs, trace w' = trace w ++ evs.

(** A computation that only talks to the endpoint and the console. *)
Definition Extends {A} (m : M A) : Prop := forall w, extends w (snd (m w)).

(** What the attempts leave in the trace when each is answered by [r],
    whose status is neither 200, 503 nor 429. *)
Definition refused_events (p : params) (r : response) (attempts : list Z)
  : list event :=
  flat_map (fun _ : Z => [EGet p; EPrint (error_message r)]) attempts.

(** What the attempts leave in the trace when each GET raises. *)
Definition exception_events (p : params) (msg : string) (backoff : Z)
    (attempts : list Z) : list event :=
  flat_map (fun attempt => [EGet p; EPrint ("Request error: " +:+ msg);
                            ESleep (inject_Z (backoff ^ attempt))]) attempts.

(** The result-set metadata the loop reads from a reply, with its defaults. *)
Definition resultset_of (r : response) : resultset :=
  default {| rs_offset := None; rs_limit := None; rs_count := None |}
    (p_resultset (json r)).

(** The reply says that the last page has not been reached. *)
Definition reports_more (r : response) : Prop :=
  default 0 (rs_offset (resultset_of r)) + default 0 (rs_limit (resultset_of r))
  < default 0 (rs_count (resultset_of r)).

(** A faithful endpoint over the records [data]: the page at (1-based)
    offset [o] holds the records [o .. o + 999]. *)
Definition dataset_server (data : list ObservationRecord) : server :=
  paging_server (Z.of_nat (length data))
    (fun o => firstn 1000 (skipn (Z.to_nat (o - 1)) data)).

(** The pages of a faithful endpoint in the order of the requests. *)
Definition pages_from (page : Z -> list ObservationRecord) (o : Z) (n : nat)
  : list ObservationRecord :=
  concat (map (fun i : nat => page (o + 1000 * Z.of_nat i)) (seq 0 n)).

(** An endpoint that always fails with status 500. *)
Definition failing_server : server :=
  fun _ _ => Responded {| status_code := 500; text := "internal error";
                          json := no_payload |}.

(** An endpoint that cannot be reached. *)
Definition unreachable_server : server :=
  fun _ _ => RequestException "connection refused".

(** An endpoint that forgets the limit in its metadata: it reports offset 1
    and 5 records, and no limit. *)
Definition no_limit_server : server :=
  fun _ _ =>
    Responded {| status_code := 200; text := "";
                 json := {| p_results := Some [one_record];
                            p_resultset := Some {| rs_offset := Some 1;
                                                   rs_limit := None;
                                                   rs_count := Some 5 |} |} |}.

Definition three_records : list ObservationRecord :=
  [one_record; one_record; one_record].

(** What the fetch of one month leaves in the trace when the endpoint
    answers with a single page [page1] and reports [total] records. *)
Definition month_events (total : Z) (page1 : list ObservationRecord)
    (m : string * string) : list event :=
  page_events (fst m) (snd m) 1 total page1
  ++ [EPrintHead (firstn 5 page1); ESleep (1 # 2)].

(** A run from inside the [data] directory next to the script. *)
Definition w_data : world :=
  {| gets := 0; trace := []; cwd := "/home/user/etl_noaa/data";
     script_file := "/home/user/etl_noaa/etl_noaa.py"; files := ∅ |}.

(** What the driver logs before it loads the checkpoint. *)
Definition checkpoint_logs : list event :=
  [ELog "Preliminaries complete. Initiating ETL process.";
   ELog "CSV available...utilizing previous CSV"].

(** What [one_record_server] yields for 1974..2023. *)
Definition fifty_years_of_one_record : list row :=
  concat (map (fun year => repeat {| row_obs := one_record; row_year := year |} 12)
            (Py.range 1974 2024)).

(** A world whose checkpoint file holds [tmax_twice]. *)
Definition w_checkpointed : world :=
  {| gets := 0; trace := []; cwd := "/home/user/etl_noaa";
     script_file := "/home/user/etl_noaa/etl_noaa.py";
     files := {["/home/user/etl_noaa/data/new_york_weather_1974_2024.csv"%string
               := tmax_twice]} |}.

(** What the loop leaves in the trace against a faithful endpoint, from the
    page at offset [o] on, when [k] more pages follow it: 0.2 s of sleep
    after every page but the last, and the head of all records at the
    end. *)
Fixpoint paging_events (start end_ : string) (total : Z)
    (page : Z -> list ObservationRecord) (o : Z) (k : nat)
    (results : list ObservationRecord) : list event :=
  match k with
  | O => page_events start end_ o total (page o)
         ++ [EPrintHead (firstn 5 (results ++ page o))]
  | S k' => page_events start end_ o total (page o) ++ [ESleep (1 # 5)]
            ++ paging_events start end_ total page (o + 1000) k'
                 (results ++ page o)
  end.

(** * Theorems *)

(** ** Worlds and computations *)

Lemma advance_advance n1 n2 e1 e2 w :
  advance n2 e2 (advance n1 e1 w) = advance (n1 + n2) (e1 ++ e2) w.
Proof.
  unfold advance; simpl. f_equal; [lia | by rewrite app_assoc].
Qed.

Lemma advance_nil w : advance 0 [] w = w.
Proof. destruct w; unfold advance; simpl. by rewrite app_nil_r. Qed.

Lemma bind_Ok {A B} (m : M A) (k : A -> M B) w a w' :
  m w = (Ok a, w') -> bind m k w = k a w'.
Proof. intros H. unfold bind. by rewrite H. Qed.

Lemma emit_advance e w : emit e w = (Ok tt, advance 0 [e] w).
Proof. reflexivity. Qed.

Lemma requests_get_advance srv p w :
  requests_get srv p w = (Ok (srv (gets w) p), advance 1 [EGet p] w).
Proof. reflexivity. Qed.

Lemma requests_of_app tr1 tr2 :
  requests_of (tr1 ++ tr2) = requests_of tr1 ++ requests_of tr2.
Proof. apply omap_app. Qed.

(** Runs the leading [print], [sleep] or [log_progress] of the goal. *)
Ltac run_emit :=
  unfold print, sleep, log_progress;
  erewrite bind_Ok by apply emit_advance.

Ltac run_get :=
  erewrite bind_Ok by apply requests_get_advance.

(** ** range *)

Lemma range_cons a b : a < b -> Py.range a b = a :: Py.range (a + 1) b.
Proof.
  intros H. unfold Py.range.
  replace (Z.to_nat (b - a)) with (S (Z.to_nat (b - (a + 1)))) by lia.
  rewrite <- cons_seq, <- seq_shift. simpl. rewrite map_map. f_equal.
  - lia.
  - apply map_ext. intros i. lia.
Qed.

Lemma range_nil a b : b <= a -> Py.range a b = [].
Proof. intros H. unfold Py.range. by replace (Z.to_nat (b - a)) with O by lia. Qed.

Lemma range_length a b : length (Py.range a b) = Z.to_nat (b - a).
Proof. unfold Py.range. by rewrite length_map, length_seq. Qed.

Lemma range_lookup i :
  forall a b,
    Py.range a b !! i
    = if decide (a + Z.of_nat i < b) then Some (a + Z.of_nat i) else None.
Proof.
  induction i as [|i IH]; intros a b.
  - destruct (decide (a < b)) as [Hlt|Hge].
    + rewrite range_cons by done. simpl. rewrite Z.add_0_r.
      by rewrite decide_True.
    + rewrite range_nil by lia. simpl. rewrite decide_False by lia. done.
  - destruct (decide (a < b)) as [Hlt|Hge].
    + rewrite range_cons by done. simpl. rewrite IH.
      replace (a + 1 + Z.of_nat i) with (a + Z.pos (Pos.of_succ_nat i)) by lia.
      done.
    + rewrite range_nil by lia. simpl. rewrite decide_False by lia. done.
Qed.

(** ** make_request *)

Section MakeRequest.
Variables (srv : server) (p : params) (backoff : Z).

(** A run of 503 answers uses up one attempt each, with its sleep. *)
Lemma make_request_from_503 pre post w :
  (forall k, (k < length pre)%nat -> status_of (srv (gets w + k)%nat p) = Some 503) ->
  make_request_from srv p backoff (pre ++ post) w
  = make_request_from srv p backoff post
      (advance (length pre) (retry_events p backoff pre) w).
Proof.
  revert w. induction pre as [|a pre IH]; intros w H.
  - simpl. by rewrite advance_nil.
  - simpl app. simpl make_request_from. run_get.
    specialize (H O ltac:(simpl; lia)) as H0.
    rewrite Nat.add_0_r in H0.
    destruct (srv (gets w) p) as [r|]; [|done]. simpl in H0.
    injection H0 as ->. simpl. run_emit.
    rewrite IH.
    + rewrite !advance_advance. simpl. reflexivity.
    + intros k Hk. simpl.
      rewrite <- Nat.add_succ_r. apply H. simpl. lia.
Qed.

Lemma make_request_from_none_or_200 attempts w :
  none_or_200 (fst (make_request_from srv p backoff attempts w)).
Proof.
  revert w. induction attempts as [|a attempts IH]; intros w; [done|].
  simpl make_request_from. run_get.
  destruct (srv (gets w) p) as [r|msg].
  - destruct (status_code r =? 200) eqn:E200; [simpl; lia|].
    destruct (status_code r =? 503) eqn:E503.
    { run_emit. apply IH. }
    destruct (status_code r =? 429) eqn:E429; [done|].
    run_emit. apply IH.
  - do 2 run_emit. apply IH.
Qed.

Lemma make_request_200 retries w r :
  1 <= retries ->
  srv (gets w) p = Responded r ->
  status_code r = 200 ->
  make_request srv p retries backoff w = (Ok (Some r), advance 1 [EGet p] w).
Proof.
  intros Hretries Hsrv H200.
  unfold make_request. rewrite range_cons by lia.
  simpl make_request_from. run_get.
  by rewrite Hsrv, H200.
Qed.
End MakeRequest.

(** C9: whatever the endpoint answers and whatever [retries] and [backoff]
    are, [make_request] returns [None] or a response whose status code is
    200; it never returns a response with another status, and it never
    raises. *)
Theorem make_request_returns_none_or_200 :
  forall srv p retries backoff w,
    none_or_200 (fst (make_request srv p retries backoff w)).
Proof. intros. apply make_request_from_none_or_200. Qed.

(** C3: against an endpoint that answers 503 to the first two attempts and
    200 to the third, [make_request] with [retries >= 3] and [backoff > 1]
    makes exactly three GETs, sleeps [backoff^0] and then [backoff^1]
    seconds between them (a strictly longer second delay), and returns the
    200 response.  In general, an endpoint that answers 503 to every attempt
    is asked [retries] times, attempt [a] being followed by a sleep of
    [backoff^a], before [make_request] gives up with [None]. *)
Theorem make_request_503_twice_then_200 :
  forall srv p retries backoff w r,
    3 <= retries ->
    1 < backoff ->
    status_of (srv (gets w) p) = Some 503 ->
    status_of (srv (S (gets w)) p) = Some 503 ->
    srv (S (S (gets w))) p = Responded r ->
    status_code r = 200 ->
    make_request srv p retries backoff w
    = (Ok (Some r),
       advance 3 [EGet p; ESleep (inject_Z (backoff ^ 0));
                  EGet p; ESleep (inject_Z (backoff ^ 1));
                  EGet p] w)
    /\ backoff ^ 0 < backoff ^ 1
    /\ forall srv' w',
        (forall k, (k < Z.to_nat retries)%nat ->
                   status_of (srv' (gets w' + k)%nat p) = Some 503) ->
        make_request srv' p retries backoff w'
        = (Ok None,
           advance (Z.to_nat retries)
             (retry_events p backoff (Py.range 0 retries)
              ++ [EPrint "Max retries exceeded."]) w').
Proof.
  intros srv p retries backoff w r Hretries Hbackoff H0 H1 H2 H200.
  split; [|split].
  - unfold make_request.
    rewrite (range_cons 0), (range_cons (0 + 1)), (range_cons (0 + 1 + 1)) by lia.
    change (0 :: 0 + 1 :: 0 + 1 + 1 :: Py.range (0 + 1 + 1 + 1) retries)
      with ([0; 1] ++ 2 :: Py.range 3 retries).
    rewrite make_request_from_503.
    + simpl make_request_from. run_get.
      change (gets (advance 2 _ w)) with (S (S (gets w))).
      rewrite H2, H200. simpl.
      unfold ret. by rewrite advance_advance.
    + intros [|[|k]] Hk; simpl in Hk; try lia.
      * by rewrite Nat.add_0_r.
      * by rewrite Nat.add_1_r.
  - lia.
  - intros srv' w' H. unfold make_request.
    rewrite <- (app_nil_r (Py.range 0 retries)) at 1.
    rewrite make_request_from_503.
    + rewrite range_length, Z.sub_0_r. simpl make_request_from. run_emit.
      unfold ret. by rewrite advance_advance, Nat.add_0_r.
    + by rewrite range_length, Z.sub_0_r.
Qed.

Lemma make_request_503_twice_then_200_witness :
  make_request flaky_server january_2020 5 2 w0
  = (Ok (Some ok_without_data),
     advance 3 [EGet january_2020; ESleep (inject_Z 1);
                EGet january_2020; ESleep (inject_Z 2);
                EGet january_2020] w0).
Proof.
  apply (make_request_503_twice_then_200
           flaky_server january_2020 5 2 w0 ok_without_data);
    [lia | lia | reflexivity | reflexivity | reflexivity | reflexivity].
Defined.

(** C4: when the first answer has status 429 (so at least one attempt is
    made), [make_request] returns [None] after that single GET: the trace
    gains the request and the error message, and no sleep. *)
Theorem make_request_429_no_retry :
  forall srv p retries backoff w r,
    1 <= retries ->
    srv (gets w) p = Responded r ->
    status_code r = 429 ->
    make_request srv p retries backoff w
    = (Ok None, advance 1 [EGet p; EPrint (error_message r)] w).
Proof.
  intros srv p retries backoff w r Hretries Hsrv H429.
  unfold make_request. rewrite range_cons by lia.
  simpl make_request_from. run_get.
  rewrite Hsrv, H429. simpl. run_emit.
  unfold ret. by rewrite advance_advance.
Qed.

Lemma make_request_429_no_retry_witness :
  make_request (rate_limited_after 0) january_2020 5 2 w0
  = (Ok None,
     advance 1 [EGet january_2020;
                EPrint "Error with status code 429: rate limit exceeded"] w0).
Proof.
  apply (make_request_429_no_retry
           (rate_limited_after 0) january_2020 5 2 w0 too_many_requests);
    [lia | reflexivity | reflexivity].
Defined.

(** ** get_temp_vals_by_dates *)

Lemma pagination_none_raises fuel srv start end_ p results w w' :
  make_request srv p default_retries default_backoff w = (Ok None, w') ->
  pagination_loop (S fuel) srv start end_ p results w = (Raise AttributeError, w').
Proof. intros H. simpl. by erewrite bind_Ok by apply H. Qed.

(** The early return of the pagination loop needs a response whose status
    is not 200, which [make_request] never hands back. *)
Lemma early_return_unreachable srv p retries backoff w r w' :
  make_request srv p retries backoff w = (Ok (Some r), w') ->
  negb (status_code r =? 200) = false.
Proof.
  intros H.
  pose proof (make_request_from_none_or_200 srv p backoff (Py.range 0 retries) w)
    as H'.
  fold (make_request srv p retries backoff) in H'.
  rewrite H in H'. simpl in H'. by rewrite H'.
Qed.

(** More fuel does not change a run that did not run out of it. *)
Lemma pagination_loop_fuel_mono srv start end_ :
  forall fuel fuel' p results w res w',
    (fuel <= fuel')%nat ->
    pagination_loop fuel srv start end_ p results w = (res, w') ->
    res <> OutOfFuel ->
    pagination_loop fuel' srv start end_ p results w = (res, w').
Proof.
  induction fuel as [|fuel IH]; intros fuel' p results w res w' Hle Hrun Hres.
  - simpl in Hrun. injection Hrun as <- <-. done.
  - destruct fuel' as [|fuel']; [lia|].
    simpl in Hrun |- *. unfold bind in Hrun |- *.
    destruct (make_request srv p default_retries default_backoff w)
      as [[[r|]|e|] w1]; try done.
    destruct (negb (status_code r =? 200)); [done|].
    destruct (print "had a valid request" w1) as [[[]|e|] w2]; try done.
    destruct (print _ w2) as [[[]|e|] w3]; try done.
    destruct (_ >=? _); [done|].
    destruct (sleep _ w3) as [[[]|e|] w4]; try done.
    eapply IH; [lia|done..].
Qed.

(** C1: the code raises where the claim wants the records so far.  Against
    an endpoint that is rate limited from the second page on, the first page
    is read and then [response.status_code] on the [None] that
    [make_request] returned raises [AttributeError]; the same happens when
    already the first page is refused. *)
Theorem pagination_raises_on_None :
  (forall fuel,
      fst (get_temp_vals_by_dates (S (S fuel)) (rate_limited_after 1)
             "2020-01-01" "2020-01-31" w0)
      = Raise AttributeError)
  /\ (forall fuel,
         fst (get_temp_vals_by_dates (S fuel) (rate_limited_after 0)
                "2020-01-01" "2020-01-31" w0)
         = Raise AttributeError).
Proof. split; intros fuel; reflexivity. Qed.

Section Paging.
Variables (total : Z) (page : Z -> list ObservationRecord).
Variables (start end_ : string).

Lemma pagination_loop_more fuel o results w :
  o + 1000 < total ->
  pagination_loop (S fuel) (paging_server total page) start end_ (request_at start end_ o) results w
  = pagination_loop fuel (paging_server total page) start end_ (request_at start end_ (o + 1000))
      (results ++ page o)
      (advance 1 (page_events start end_ o total (page o) ++ [ESleep (1 # 5)]) w).
Proof.
  intros Hmore. simpl pagination_loop.
  erewrite bind_Ok by (by apply make_request_200).
  simpl. do 2 run_emit.
  destruct (o + 1000 >=? total) eqn:E; [lia|].
  run_emit. by rewrite !advance_advance.
Qed.

Lemma pagination_loop_last fuel o results w :
  o + 1000 >= total ->
  pagination_loop (S fuel) (paging_server total page) start end_ (request_at start end_ o) results w
  = (Ok (results ++ page o),
     advance 1 (page_events start end_ o total (page o)
                ++ [EPrintHead (firstn 5 (results ++ page o))]) w).
Proof.
  intros Hlast. simpl pagination_loop.
  erewrite bind_Ok by (by apply make_request_200).
  simpl. do 2 run_emit.
  destruct (o + 1000 >=? total) eqn:E; [|lia].
  run_emit. unfold ret. by rewrite !advance_advance.
Qed.

(** [k] further pages follow the one at offset [o]. *)
Lemma paging_run k :
  forall o results w,
    (forall j, 0 <= j < Z.of_nat k -> o + 1000 * j + 1000 < total) ->
    o + 1000 * Z.of_nat k + 1000 >= total ->
    exists results' w',
      pagination_loop (S k) (paging_server total page) start end_ (request_at start end_ o) results w
      = (Ok results', w')
      /\ gets w' = (gets w + S k)%nat
      /\ requests_of (trace w')
         = requests_of (trace w)
           ++ map (fun i : nat => request_at start end_ (o + 1000 * Z.of_nat i))
                (seq 0 (S k)).
Proof.
  induction k as [|k IH]; intros o results w Hmore Hlast.
  - rewrite pagination_loop_last by lia.
    eexists _, _. split; [reflexivity|]. split.
    + simpl. lia.
    + simpl. rewrite requests_of_app. simpl. by rewrite Z.add_0_r.
  - rewrite pagination_loop_more by (specialize (Hmore 0); lia).
    edestruct (IH (o + 1000)) as (results' & w' & Hrun & Hgets & Hreqs);
      [| |rewrite Hrun].
    + intros j Hj. specialize (Hmore (j + 1) ltac:(lia)). lia.
    + lia.
    + exists results', w'. split; [reflexivity|]. split.
      * rewrite Hgets. simpl. lia.
      * rewrite Hreqs, <- (cons_seq (S k) 0), <- (seq_shift (S k) 0),
          map_cons, map_map.
        remember (seq 0 (S k)) as later.
        simpl. rewrite requests_of_app, <- app_assoc. simpl.
        do 2 f_equal; [f_equal; lia|].
        apply map_ext. intros i. f_equal. lia.
Qed.

(** Against a faithful endpoint the loop asks for the pages at offsets 1,
    1001, 2001, ... and stops at the first one whose offset plus limit
    reaches the total: [max 1 (ceil ((total - 1) / 1000))] requests. *)
Lemma paging_requests w :
  let n := Z.to_nat (Z.max 1 (ceil_div (total - 1) 1000)) in
  exists results w',
    (forall fuel, (n <= fuel)%nat ->
       get_temp_vals_by_dates fuel (paging_server total page) start end_ w = (Ok results, w'))
    /\ gets w' = (gets w + n)%nat
    /\ requests_of (trace w')
       = requests_of (trace w)
         ++ map (fun i : nat => request_at start end_ (1 + 1000 * Z.of_nat i))
              (seq 0 n)
    /\ (forall i, 0 <= i < Z.of_nat n - 1 -> (1 + 1000 * i) + 1000 < total)
    /\ (1 + 1000 * (Z.of_nat n - 1)) + 1000 >= total.
Proof.
  intros n.
  assert (exists k, n = S k) as [k Hk] by (exists (Nat.pred n); lia).
  assert (Hmore : forall i, 0 <= i < Z.of_nat n - 1 -> 1 + 1000 * i + 1000 < total).
  { subst n. unfold ceil_div. intros i Hi. Z.div_mod_to_equations. lia. }
  assert (Hlast : 1 + 1000 * (Z.of_nat n - 1) + 1000 >= total).
  { subst n. unfold ceil_div. Z.div_mod_to_equations. lia. }
  destruct (paging_run k 1 [] w) as (results & w' & Hrun & Hgets & Hreqs).
  { intros j Hj. apply Hmore. lia. }
  { replace (Z.of_nat k) with (Z.of_nat n - 1) by lia. exact Hlast. }
  exists results, w'. rewrite Hk. repeat split.
  - intros fuel Hfuel. unfold get_temp_vals_by_dates.
    eapply pagination_loop_fuel_mono; [exact Hfuel|exact Hrun|done].
  - exact Hgets.
  - exact Hreqs.
  - rewrite <- Hk. exact Hmore.
  - rewrite <- Hk. exact Hlast.
Qed.
End Paging.

(** C2, as the code has it: against an endpoint that echoes the requested
    offset and limit and reports [total] records, whatever [total] is,
    [get_temp_vals_by_dates] returns after some number [n >= 1] of requests,
    made at the offsets 1, 1001, 2001, ... in this order (the offset advances
    by the limit); every page but the last has offset + limit below the
    total, and the last one is the first with offset + limit >= total.  When
    [total mod 1000] is not 1, [n] is [max 1 (ceil (total / 1000))]. *)
Theorem pagination_requests_until_total :
  forall total page start end_ w,
    exists (n : nat) results w',
      (1 <= n)%nat
      /\ (forall fuel, (n <= fuel)%nat ->
            get_temp_vals_by_dates fuel (paging_server total page) start end_ w
            = (Ok results, w'))
      /\ gets w' = (gets w + n)%nat
      /\ requests_of (trace w')
         = requests_of (trace w)
           ++ map (fun i : nat => request_at start end_ (1 + 1000 * Z.of_nat i))
                (seq 0 n)
      /\ (forall i, 0 <= i < Z.of_nat n - 1 -> (1 + 1000 * i) + 1000 < total)
      /\ (1 + 1000 * (Z.of_nat n - 1)) + 1000 >= total
      /\ (total mod 1000 <> 1 -> Z.of_nat n = Z.max 1 (ceil_div total 1000)).
Proof.
  intros total page start end_ w.
  destruct (paging_requests total page start end_ w)
    as (results & w' & Hrun & Hgets & Hreqs & Hmore & Hlast).
  exists (Z.to_nat (Z.max 1 (ceil_div (total - 1) 1000))), results, w'.
  split; [lia|].
  split; [exact Hrun|]. split; [exact Hgets|]. split; [exact Hreqs|].
  split; [exact Hmore|]. split; [exact Hlast|].
  intros Hmod. unfold ceil_div. Z.div_mod_to_equations. lia.
Qed.

Lemma pagination_requests_until_total_witness :
  exists (n : nat) results w',
    Z.of_nat n = 3
    /\ (forall fuel, (n <= fuel)%nat ->
          get_temp_vals_by_dates fuel (paging_server 2500 (fun _ => [one_record]))
            "2020-01-01" "2020-01-31" w0
          = (Ok results, w'))
    /\ gets w' = (0 + n)%nat
    /\ requests_of (trace w')
       = map (fun i : nat => request_at "2020-01-01" "2020-01-31"
                               (1 + 1000 * Z.of_nat i)) (seq 0 n)
    /\ (forall i, 0 <= i < Z.of_nat n - 1 -> (1 + 1000 * i) + 1000 < 2500)
    /\ (1 + 1000 * (Z.of_nat n - 1)) + 1000 >= 2500.
Proof.
  destruct (pagination_requests_until_total
              2500 (fun _ => [one_record]) "2020-01-01" "2020-01-31" w0)
    as (n & results & w' & Hpos & Hrun & Hgets & Hreqs & Hmore & Hlast & Hcount).
  exists n, results, w'.
  split; [apply Hcount; vm_compute; discriminate|].
  split; [exact Hrun|]. split; [exact Hgets|]. split; [exact Hreqs|].
  split; [exact Hmore|exact Hlast].
Defined.

(** At a total of 1001 the test [offset + limit >= total] already holds on
    the first page: the run is the single request at offset 1. *)
Example pagination_stops_at_equality :
  forall page,
    get_temp_vals_by_dates 2 (paging_server 1001 page) "2020-01-01" "2020-01-31" w0
    = (Ok (page 1),
       advance 1 (page_events "2020-01-01" "2020-01-31" 1 1001 (page 1)
                  ++ [EPrintHead (firstn 5 (page 1))]) w0).
Proof. intros page. reflexivity. Qed.

(** A total of 0 costs one request, not [ceil (0 / 1000) = 0]. *)
Lemma one_request_for_total_0 :
  fst (get_temp_vals_by_dates 1 (paging_server 0 (fun _ => []))
         "2020-01-01" "2020-01-31" w0) = Ok []
  /\ gets (snd (get_temp_vals_by_dates 1 (paging_server 0 (fun _ => []))
                  "2020-01-01" "2020-01-31" w0)) = 1%nat
  /\ Z.of_nat (gets (snd (get_temp_vals_by_dates 1 (paging_server 0 (fun _ => []))
                            "2020-01-01" "2020-01-31" w0)))
     <> ceil_div 0 1000.
Proof. split; [reflexivity|]. split; [reflexivity|]. by vm_compute. Qed.

(** With 1001 records the loop stops after the first page of 1000, one
    request short of [ceil (1001 / 1000)]. *)
Lemma one_request_for_total_1001 page :
  gets (snd (get_temp_vals_by_dates 2 (paging_server 1001 page)
               "2020-01-01" "2020-01-31" w0)) = 1%nat
  /\ ceil_div 1001 1000 = 2.
Proof. split; reflexivity. Qed.

(** ** generate_date_ranges *)

Lemma isleap_leap_year year : Py.isleap year = true <-> leap_year year.
Proof.
  unfold Py.isleap, leap_year.
  rewrite andb_true_iff, orb_true_iff, negb_true_iff, !Z.eqb_eq, Z.eqb_neq.
  rewrite <- !Z.mod_divide by lia. reflexivity.
Qed.

Lemma february_length year :
  last_day_of_month year 2 (28 + (if Py.isleap year then 1 else 0)).
Proof.
  destruct (Py.isleap year) eqn:E.
  - apply february_leap. by apply isleap_leap_year.
  - apply february_common. rewrite <- isleap_leap_year. by rewrite E.
Qed.

Lemma generate_date_ranges_eq year :
  generate_date_ranges year
  = Ok [(first_of_month year 1, date_string year 1 31);
        (first_of_month year 2,
         date_string year 2 (28 + (if Py.isleap year then 1 else 0)));
        (first_of_month year 3, date_string year 3 31);
        (first_of_month year 4, date_string year 4 30);
        (first_of_month year 5, date_string year 5 31);
        (first_of_month year 6, date_string year 6 30);
        (first_of_month year 7, date_string year 7 31);
        (first_of_month year 8, date_string year 8 31);
        (first_of_month year 9, date_string year 9 30);
        (first_of_month year 10, date_string year 10 31);
        (first_of_month year 11, date_string year 11 30);
        (first_of_month year 12, date_string year 12 31)].
Proof. reflexivity. Qed.

(** C6: for every year, [generate_date_ranges] returns (it cannot raise) a
    list of exactly twelve ranges, the [m]-th being the pair of date strings
    of day 01 and of the last day of month [m] by the Gregorian rule; for
    instance February 2024 ends on the 29th and February 2023 on the
    28th. *)
Theorem generate_date_ranges_months :
  (forall year,
     exists ranges,
       generate_date_ranges year = Ok ranges
       /\ length ranges = 12%nat
       /\ Forall2 (month_range year) [1; 2; 3; 4; 5; 6; 7; 8; 9; 10; 11; 12] ranges)
  /\ (exists ranges, generate_date_ranges 2024 = Ok ranges
                     /\ ranges !! 1%nat = Some ("2024-02-01", "2024-02-29")%string)
  /\ (exists ranges, generate_date_ranges 2023 = Ok ranges
                     /\ ranges !! 1%nat = Some ("2023-02-01", "2023-02-28")%string).
Proof.
  split; [|split; eexists; (split; [vm_compute; reflexivity|reflexivity])].
  intros year. rewrite generate_date_ranges_eq.
  eexists. split; [reflexivity|]. split; [reflexivity|].
  repeat (constructor; [split; [reflexivity|eexists; split; [|reflexivity]]|]);
    try (by constructor);
    try (apply long_month; simpl; tauto);
    try (apply short_month; simpl; tauto).
  apply february_length.
Qed.

(** ** extract *)

Lemma extract_years_fetch_all fuel srv years :
  forall all_years w,
    extract_years fuel srv years all_years w
    = match fetch_all fuel srv years w with
      | (Ok tables, w1) => (Ok (all_years ++ List.filter non_empty tables), w1)
      | (Raise e, w1) => (Raise e, w1)
      | (OutOfFuel, w1) => (OutOfFuel, w1)
      end.
Proof.
  induction years as [|year years IH]; intros all_years w.
  - simpl. unfold ret. by rewrite app_nil_r.
  - simpl. unfold bind.
    destruct (fetch_year fuel srv year w) as [[df|e|] w1]; try done.
    rewrite IH.
    destruct (fetch_all fuel srv years w1) as [[tables|e|] w2]; try done.
    unfold ret. simpl. unfold non_empty at 2.
    destruct (empty df); simpl.
    + done.
    + by rewrite <- app_assoc.
Qed.

Lemma extract_fetch_all fuel srv start_year end_year w :
  extract fuel srv start_year end_year w
  = match fetch_all fuel srv (Py.range start_year end_year) w with
    | (Ok tables, w1) =>
        match List.filter non_empty tables with
        | [] => (Ok None, advance 0 [EPrint "Failed to save data"] w1)
        | df :: dfs =>
            (Ok (Some (concat (df :: dfs))),
             advance 0 [EPrint "Saved records!"]
               (with_csv output_csv_name (concat (df :: dfs)) w1))
        end
    | (Raise e, w1) => (Raise e, w1)
    | (OutOfFuel, w1) => (OutOfFuel, w1)
    end.
Proof.
  unfold extract, bind at 1. rewrite extract_years_fetch_all.
  destruct (fetch_all fuel srv (Py.range start_year end_year) w)
    as [[tables|e|] w1]; try done.
  simpl app. destruct (List.filter non_empty tables) as [|df dfs]; reflexivity.
Qed.

Lemma filter_all_empty (tables : list (list row)) :
  Forall (fun df => df = []) tables -> List.filter non_empty tables = [].
Proof.
  induction 1 as [|df tables Hdf _ IH]; [done|].
  simpl. by rewrite Hdf.
Qed.

(** C7: when the fetch of every year of the span returns a table,
    [extract] has fetched the years [start_year], [start_year + 1], ... up
    to but not including [end_year], in this order and nothing else; if some
    table is not empty it writes the concatenation of the non-empty ones to
    [output_csv_name] and returns it, and if all are empty it prints the
    failure message and returns without raising, and without a table. *)
Theorem extract_half_open_span :
  forall fuel srv start_year end_year w tables,
    fst (fetch_all fuel srv (Py.range start_year end_year) w) = Ok tables ->
    let w1 := snd (fetch_all fuel srv (Py.range start_year end_year) w) in
    let kept := List.filter non_empty tables in
    (forall i : nat,
        Py.range start_year end_year !! i
        = if decide (start_year + Z.of_nat i < end_year)
          then Some (start_year + Z.of_nat i) else None)
    /\ (kept <> [] ->
        extract fuel srv start_year end_year w
        = (Ok (Some (concat kept)),
           advance 0 [EPrint "Saved records!"]
             (with_csv output_csv_name (concat kept) w1)))
    /\ (kept = [] ->
        extract fuel srv start_year end_year w
        = (Ok None, advance 0 [EPrint "Failed to save data"] w1)).
Proof.
  intros fuel srv start_year end_year w tables Hall w1 kept.
  split; [intros i; apply range_lookup|].
  rewrite extract_fetch_all. subst w1 kept.
  destruct (fetch_all fuel srv (Py.range start_year end_year) w) as [res w1].
  simpl in Hall. subst res. simpl snd.
  destruct (List.filter non_empty tables) as [|df dfs]; split; done.
Qed.

Lemma extract_half_open_span_witness :
  fst (fetch_all 1 one_record_server (Py.range 2020 2022) w0)
  = Ok two_years_of_one_record
  /\ fst (extract 1 one_record_server 2020 2022 w0)
     = Ok (Some (concat two_years_of_one_record))
  /\ files (snd (extract 1 one_record_server 2020 2022 w0))
     !! "/home/user/etl_noaa/new_york_weather_1974_2024.csv"%string
     = Some (concat two_years_of_one_record).
Proof.
  assert (Hall : fst (fetch_all 1 one_record_server (Py.range 2020 2022) w0)
                 = Ok two_years_of_one_record) by (vm_compute; reflexivity).
  destruct (extract_half_open_span 1 one_record_server 2020 2022 w0
              two_years_of_one_record Hall) as (_ & Hkept & _).
  split; [exact Hall|].
  rewrite Hkept by (vm_compute; discriminate).
  split; [reflexivity|].
  vm_compute. reflexivity.
Defined.

(** ** The driver *)

Lemma startup_without_checkpoint fuel srv w :
  files w !! checkpoint_path w = None ->
  startup fuel srv w = extract fuel srv 1974 2024 (advance 0 startup_logs w).
Proof.
  intros Habsent. unfold startup. run_emit.
  erewrite bind_Ok by reflexivity.
  erewrite bind_Ok by reflexivity.
  change (files (advance 0 _ w) !! _) with (files w !! checkpoint_path w).
  rewrite Habsent. rewrite bool_decide_false by (by intros [? ?]).
  cbn [negb]. run_emit.
  by rewrite advance_advance.
Qed.

(** C10: if every year of a span yields an empty table, [extract] returns
    Python's [None], not an empty table; and in a run of the script without
    checkpoint file, where this happens for the span 1974..2024, [None] is
    what the driver hands to [transform], whose first subscript then
    raises. *)
Theorem extract_returns_None_when_all_empty :
  (forall fuel srv start_year end_year w tables,
      fst (fetch_all fuel srv (Py.range start_year end_year) w) = Ok tables ->
      Forall (fun df => df = []) tables ->
      fst (extract fuel srv start_year end_year w) = Ok None)
  /\ (forall fuel srv w tables,
         files w !! checkpoint_path w = None ->
         fst (fetch_all fuel srv (Py.range 1974 2024) (advance 0 startup_logs w))
         = Ok tables ->
         Forall (fun df => df = []) tables ->
         fst (startup fuel srv w) = Ok None
         /\ fst (script fuel srv w) = Raise TypeError).
Proof.
  assert (Hextract : forall fuel srv start_year end_year w tables,
             fst (fetch_all fuel srv (Py.range start_year end_year) w) = Ok tables ->
             Forall (fun df => df = []) tables ->
             fst (extract fuel srv start_year end_year w) = Ok None).
  { intros fuel srv start_year end_year w tables Hall Hempty.
    rewrite extract_fetch_all.
    destruct (fetch_all fuel srv (Py.range start_year end_year) w) as [res w1].
    simpl in Hall. subst res. by rewrite filter_all_empty. }
  split; [exact Hextract|].
  intros fuel srv w tables Habsent Hall Hempty.
  assert (Hstart : fst (startup fuel srv w) = Ok None).
  { rewrite startup_without_checkpoint by done. by eapply Hextract. }
  split; [exact Hstart|].
  unfold script, bind at 1.
  destruct (startup fuel srv w) as [res w1]. simpl in Hstart. subst res.
  run_emit. reflexivity.
Qed.

Lemma extract_returns_None_when_all_empty_witness :
  fst (extract 1 empty_server 1974 2024 w0) = Ok None
  /\ fst (startup 1 empty_server w0) = Ok None
  /\ fst (script 1 empty_server w0) = Raise TypeError.
Proof.
  destruct extract_returns_None_when_all_empty as [Hextract Hscript].
  split.
  - apply (Hextract 1%nat empty_server 1974 2024 w0 (repeat [] 50)).
    + vm_compute. reflexivity.
    + vm_compute. repeat constructor.
  - apply (Hscript 1%nat empty_server w0 (repeat [] 50)).
    + vm_compute. reflexivity.
    + vm_compute. reflexivity.
    + vm_compute. repeat constructor.
Defined.

(** C5: the checkpoint is written to one path and looked for at another.
    A first run from the script's own directory, against an endpoint with
    data, extracts 1974..2023 with 600 requests and writes the table it
    returns to [new_york_weather_1974_2024.csv] in the working directory;
    the path the driver tests is under [data/], no file is there, and the
    next startup extracts again, with 600 more requests. *)
Theorem checkpoint_written_elsewhere :
  gets (snd first_run) = 600%nat
  /\ match fst first_run with
     | Ok (Some df) =>
         files (snd first_run)
         !! "/home/user/etl_noaa/new_york_weather_1974_2024.csv"%string = Some df
     | _ => False
     end
  /\ checkpoint_path (snd first_run)
     = "/home/user/etl_noaa/data/new_york_weather_1974_2024.csv"%string
  /\ files (snd first_run) !! checkpoint_path (snd first_run) = None
  /\ gets (snd (startup 1 one_record_server (snd first_run))) = 1200%nat.
Proof.
  split; [vm_compute; reflexivity|].
  split; [vm_compute; reflexivity|].
  split; [vm_compute; reflexivity|].
  split; vm_compute; reflexivity.
Qed.

(** ** The pivot *)

Lemma cell_put_first t r k dt :
  cell (put_first t r) k dt
  = match cell t k dt with
    | Some v => Some v
    | None => if decide (row_key r = k /\ obs_datatype (row_obs r) = dt)
              then obs_value (row_obs r) else None
    end.
Proof.
  unfold put_first, cell.
  generalize (row_key r) (obs_datatype (row_obs r)). intros rk dtr.
  destruct (obs_value (row_obs r)) as [v|].
  2: { destruct (t !! k ≫= _); [done|]. by case_decide. }
  destruct (decide (rk = k)) as [->|Hk].
  - destruct (t !! k) as [cells|] eqn:Ht; simpl.
    + destruct (cells !! dtr) eqn:Hc.
      * rewrite Ht. simpl.
        destruct (cells !! dt) eqn:Hdt; [done|].
        case_decide as Hd; [|done]. destruct Hd as [_ <-]. congruence.
      * rewrite lookup_insert_eq. simpl.
        destruct (decide (dtr = dt)) as [<-|Hne].
        -- rewrite lookup_insert_eq, Hc. by rewrite decide_True.
        -- rewrite lookup_insert_ne by done.
           destruct (cells !! dt); [done|]. rewrite decide_False; [done|].
           by intros [_ ?].
    + rewrite lookup_empty, lookup_insert_eq. simpl.
      destruct (decide (dtr = dt)) as [<-|Hne].
      * rewrite lookup_insert_eq. by rewrite decide_True.
      * rewrite lookup_insert_ne, lookup_empty by done.
        rewrite decide_False; [done|]. by intros [_ ?].
  - destruct (default ∅ (t !! rk) !! dtr).
    + destruct (t !! k ≫= _); [done|]. rewrite decide_False; [done|].
      by intros [? _].
    + rewrite lookup_insert_ne by done.
      destruct (t !! k ≫= _); [done|]. rewrite decide_False; [done|].
      by intros [? _].
Qed.

Lemma cell_fold_put_first df k dt :
  forall t,
    cell (fold_left put_first df t) k dt
    = match cell t k dt with
      | Some v => Some v
      | None => first_value df k dt
      end.
Proof.
  induction df as [|r df IH]; intros t; simpl.
  - by destruct (cell t k dt).
  - rewrite IH, cell_put_first. unfold first_value. simpl.
    destruct (cell t k dt); [done|].
    case_decide; [|done].
    by destruct (obs_value (row_obs r)).
Qed.

Lemma cell_pivot_table df k dt :
  cell (pivot_table df) k dt = first_value df k dt.
Proof.
  unfold pivot_table. rewrite cell_fold_put_first.
  unfold cell. by rewrite lookup_empty.
Qed.

Lemma first_value_from_row df k dt v :
  first_value df k dt = Some v ->
  exists r, r ∈ df /\ row_key r = k /\ obs_datatype (row_obs r) = dt
            /\ obs_value (row_obs r) = Some v.
Proof.
  unfold first_value. intros Hhead.
  assert (v ∈ omap (fun r => if decide (row_key r = k /\ obs_datatype (row_obs r) = dt)
                             then obs_value (row_obs r) else None) df) as Hin.
  { destruct (omap _ df) as [|x l]; simplify_eq/=. left. }
  apply list_elem_of_omap in Hin as (r & Hr & Hf).
  exists r. case_decide as Hk; [|done]. by destruct Hk.
Qed.

Lemma omap_all_None {A B} (f : A -> option B) (l : list A) :
  (forall x, x ∈ l -> f x = None) -> omap f l = [].
Proof.
  induction l as [|x l IH]; intros Hnone; [done|].
  simpl. rewrite (Hnone x) by left.
  apply IH. intros y Hy. apply Hnone. by right.
Qed.

(** Two TMAX readings of one date and station, tagged with two years, are
    both kept: the second is not discarded. *)
Lemma pivot_keeps_both_years :
  cell (pivot_table same_reading_two_years) ("2020-01-01", "A", 2020)%string "TMAX"
  = Some (5 # 1)%Q
  /\ cell (pivot_table same_reading_two_years) ("2020-01-01", "A", 2021)%string "TMAX"
     = Some (7 # 1)%Q
  /\ ~ one_value_per_date_station_datatype (pivot_table same_reading_two_years).
Proof.
  assert (H2020 : cell (pivot_table same_reading_two_years)
                    ("2020-01-01", "A", 2020)%string "TMAX" = Some (5 # 1)%Q)
    by (by rewrite cell_pivot_table).
  assert (H2021 : cell (pivot_table same_reading_two_years)
                    ("2020-01-01", "A", 2021)%string "TMAX" = Some (7 # 1)%Q)
    by (by rewrite cell_pivot_table).
  split; [done|]. split; [done|].
  intros Hone. by specialize (Hone _ _ _ _ _ _ _ H2020 H2021).
Qed.

(** Two TMAX readings of one date and station in one year: the first is
    kept. *)
Example pivot_tmax_twice :
  cell (pivot_table tmax_twice) ("2020-01-01", "A", 2020)%string "TMAX"
  = Some (5 # 1)%Q.
Proof. by rewrite cell_pivot_table. Qed.

(** First wins: a record with a value, preceded by no valued record of its
    row and datatype, fills the cell whatever follows it. *)
Lemma pivot_first_occurrence pre r post v :
  obs_value (row_obs r) = Some v ->
  (forall r', r' ∈ pre -> row_key r' = row_key r ->
              obs_datatype (row_obs r') = obs_datatype (row_obs r) ->
              obs_value (row_obs r') = None) ->
  cell (pivot_table (pre ++ r :: post)) (row_key r) (obs_datatype (row_obs r))
  = Some v.
Proof.
  intros Hv Hpre. rewrite cell_pivot_table. unfold first_value.
  rewrite omap_app, omap_all_None.
  - simpl. rewrite decide_True by done. by rewrite Hv.
  - intros r' Hr'. case_decide as Hk; [|done].
    destruct Hk as [Hk Hdt]. by apply Hpre.
Qed.

(** When the year of a row is determined by its date, as it is for rows
    fetched month by month from an endpoint that answers within the
    requested range, the year adds nothing to the key. *)
Lemma pivot_one_value_when_year_follows_date df :
  (forall r1 r2, r1 ∈ df -> r2 ∈ df ->
                 obs_date (row_obs r1) = obs_date (row_obs r2) ->
                 row_year r1 = row_year r2) ->
  one_value_per_date_station_datatype (pivot_table df).
Proof.
  intros Hyear d s y1 y2 dt v1 v2 H1 H2.
  rewrite cell_pivot_table in H1, H2.
  apply first_value_from_row in H1 as (r1 & Hr1 & Hk1 & _).
  apply first_value_from_row in H2 as (r2 & Hr2 & Hk2 & _).
  unfold row_key in Hk1, Hk2. simplify_eq.
  apply Hyear; congruence.
Qed.

(** C8: on a table in which the year of a record is determined by its
    date, as [fetch_year] tags it, the pivot keeps at most one value per
    date, station and datatype; and when records share date, station and
    datatype, the value of the first of them in input order is the one in
    the table, at its own key and at the key of every later one: the later
    values are discarded. *)
Theorem pivot_first_wins :
  forall df,
    year_follows_date df ->
    one_value_per_date_station_datatype (pivot_table df)
    /\ forall pre r post v,
        df = pre ++ r :: post ->
        obs_value (row_obs r) = Some v ->
        (forall r', r' ∈ pre -> ~ same_reading_key r' r) ->
        cell (pivot_table df) (row_key r) (obs_datatype (row_obs r)) = Some v
        /\ forall r2, r2 ∈ post -> same_reading_key r2 r ->
             cell (pivot_table df) (row_key r2) (obs_datatype (row_obs r2))
             = Some v.
Proof.
  intros df Hyear. split.
  - by apply pivot_one_value_when_year_follows_date.
  - intros pre r post v -> Hv Hfirst.
    assert (Hcell : cell (pivot_table (pre ++ r :: post)) (row_key r)
                      (obs_datatype (row_obs r)) = Some v).
    { apply pivot_first_occurrence; [done|].
      intros r' Hr' Hk Hdt. exfalso. apply (Hfirst r' Hr').
      unfold row_key in Hk. injection Hk as Hd Hs _. by repeat split. }
    split; [exact Hcell|].
    intros r2 Hr2 (Hd & Hs & Hdt).
    assert (row_year r2 = row_year r) as Hy.
    { apply Hyear; [|set_solver|done].
      apply elem_of_app. right. by right. }
    unfold row_key. rewrite Hd, Hs, Hdt, Hy. exact Hcell.
Qed.

Lemma pivot_first_wins_witness :
  one_value_per_date_station_datatype (pivot_table tmax_twice)
  /\ cell (pivot_table tmax_twice) ("2020-01-01", "A", 2020)%string "TMAX"
     = Some (5 # 1)%Q.
Proof.
  assert (Hyear : year_follows_date tmax_twice).
  { intros r1 r2 H1 H2 _.
    apply list_elem_of_In in H1, H2. simpl in H1, H2.
    destruct H1 as [<-|[<-|[]]], H2 as [<-|[<-|[]]]; reflexivity. }
  destruct (pivot_first_wins tmax_twice Hyear) as [Hone Hfirst].
  split; [exact Hone|].
  destruct (Hfirst [] (reading "2020-01-01" "TMAX" "A" (5 # 1) 2020)
              [reading "2020-01-01" "TMAX" "A" (7 # 1) 2020] (5 # 1)%Q)
    as [Hcell Hlater].
  - reflexivity.
  - reflexivity.
  - intros r' Hr'. by apply elem_of_nil in Hr'.
  - exact Hcell.
Defined.

(** * Further properties *)

(** ** Computations that leave the file system alone *)

Lemma extends_refl w : extends w w.
Proof. repeat split; [lia|]. exists []. by rewrite app_nil_r. Qed.

Lemma extends_trans w1 w2 w3 : extends w1 w2 -> extends w2 w3 -> extends w1 w3.
Proof.
  intros (Hc1 & Hs1 & Hf1 & Hg1 & evs1 & Ht1) (Hc2 & Hs2 & Hf2 & Hg2 & evs2 & Ht2).
  repeat split; try congruence; [lia|].
  exists (evs1 ++ evs2). by rewrite Ht2, Ht1, app_assoc.
Qed.

Lemma extends_advance n evs w : extends w (advance n evs w).
Proof. repeat split; simpl; [lia|]. by exists evs. Qed.

Lemma Extends_ret {A} (a : A) : Extends (ret a).
Proof. intros w. apply extends_refl. Qed.

Lemma Extends_raise {A} e : Extends (@raise A e).
Proof. intros w. apply extends_refl. Qed.

Lemma Extends_out_of_fuel {A} : Extends (@out_of_fuel A).
Proof. intros w. apply extends_refl. Qed.

Lemma Extends_lift {A} (r : result A) : Extends (lift r).
Proof. intros w. apply extends_refl. Qed.

Lemma Extends_emit e : Extends (emit e).
Proof. intros w. apply (extends_advance 0 [e]). Qed.

Lemma Extends_requests_get srv p : Extends (requests_get srv p).
Proof. intros w. apply (extends_advance 1 [EGet p]). Qed.

Lemma Extends_bind {A B} (m : M A) (k : A -> M B) :
  Extends m -> (forall a, Extends (k a)) -> Extends (bind m k).
Proof.
  intros Hm Hk w. unfold bind. specialize (Hm w).
  destruct (m w) as [[a|e|] w1]; simpl in Hm; [|done..].
  eapply extends_trans; [exact Hm|apply Hk].
Qed.

(** One step through a computation built from the primitives. *)
Ltac extends_step :=
  first [ apply Extends_bind; [|intros ?]
        | apply Extends_emit | apply Extends_ret | apply Extends_raise
        | apply Extends_out_of_fuel | apply Extends_lift
        | apply Extends_requests_get ].

Lemma Extends_make_request_from srv p backoff attempts :
  Extends (make_request_from srv p backoff attempts).
Proof.
  induction attempts as [|a attempts IH]; simpl.
  - repeat extends_step.
  - apply Extends_bind; [apply Extends_requests_get|]. intros [r|msg].
    + destruct (status_code r =? 200); [apply Extends_ret|].
      destruct (status_code r =? 503); [by repeat extends_step|].
      destruct (status_code r =? 429); by repeat extends_step.
    + by repeat extends_step.
Qed.

Lemma Extends_pagination_loop srv start end_ fuel :
  forall p results, Extends (pagination_loop fuel srv start end_ p results).
Proof.
  induction fuel as [|fuel IH]; intros p results; simpl.
  - apply Extends_out_of_fuel.
  - apply Extends_bind; [apply Extends_make_request_from|]. intros [r|].
    + destruct (negb (status_code r =? 200)); [by repeat extends_step|].
      do 2 (apply Extends_bind; [apply Extends_emit|intros _]).
      destruct (_ >=? _); [by repeat extends_step|].
      apply Extends_bind; [apply Extends_emit|intros _]. apply IH.
    + apply Extends_raise.
Qed.

Lemma Extends_fetch_months fuel srv year months :
  forall dfs, Extends (fetch_months fuel srv year months dfs).
Proof.
  induction months as [|[start end_] months IH]; intros dfs; simpl.
  - apply Extends_ret.
  - apply Extends_bind; [apply Extends_pagination_loop|]. intros df.
    apply Extends_bind; [apply Extends_emit|intros _]. apply IH.
Qed.

Lemma Extends_fetch_year fuel srv year : Extends (fetch_year fuel srv year).
Proof.
  unfold fetch_year.
  apply Extends_bind; [apply Extends_lift|]. intros months.
  apply Extends_bind; [apply Extends_fetch_months|]. intros dfs.
  destruct (negb (empty dfs)); by repeat extends_step.
Qed.

Lemma Extends_fetch_all fuel srv years : Extends (fetch_all fuel srv years).
Proof.
  induction years as [|year years IH]; simpl.
  - apply Extends_ret.
  - apply Extends_bind; [apply Extends_fetch_year|]. intros df.
    apply Extends_bind; [apply IH|]. intros dfs. apply Extends_ret.
Qed.

(** ** make_request, further *)

Lemma range_app a m b :
  a <= m <= b -> Py.range a b = Py.range a m ++ Py.range m b.
Proof.
  intros H. remember (Z.to_nat (m - a)) as k eqn:Hk.
  revert a H Hk. induction k as [|k IH]; intros a H Hk.
  - rewrite (range_nil a m) by lia. simpl. f_equal. lia.
  - rewrite (range_cons a b), (range_cons a m) by lia.
    simpl. f_equal. apply IH; lia.
Qed.

Section MakeRequestFurther.
Variables (srv : server) (p : params) (backoff : Z).

Lemma make_request_from_refused r attempts :
  status_code r <> 200 -> status_code r <> 503 -> status_code r <> 429 ->
  forall w,
    (forall k, (k < length attempts)%nat -> srv (gets w + k)%nat p = Responded r) ->
    make_request_from srv p backoff attempts w
    = (Ok None,
       advance (length attempts)
         (refused_events p r attempts ++ [EPrint "Max retries exceeded."]) w).
Proof.
  intros H200 H503 H429.
  induction attempts as [|a attempts IH]; intros w H.
  - simpl. run_emit. reflexivity.
  - simpl make_request_from. run_get.
    rewrite <- (Nat.add_0_r (gets w)), H by (simpl; lia).
    rewrite (proj2 (Z.eqb_neq _ _) H200), (proj2 (Z.eqb_neq _ _) H503),
      (proj2 (Z.eqb_neq _ _) H429).
    run_emit. rewrite IH.
    + rewrite !advance_advance. simpl. reflexivity.
    + intros k Hk. simpl. rewrite <- Nat.add_succ_r. apply H. simpl. lia.
Qed.

Lemma make_request_from_exceptions msg attempts :
  forall w,
    (forall k, (k < length attempts)%nat ->
               srv (gets w + k)%nat p = RequestException msg) ->
    make_request_from srv p backoff attempts w
    = (Ok None,
       advance (length attempts)
         (exception_events p msg backoff attempts
          ++ [EPrint "Max retries exceeded."]) w).
Proof.
  induction attempts as [|a attempts IH]; intros w H.
  - simpl. run_emit. reflexivity.
  - simpl make_request_from. run_get.
    rewrite <- (Nat.add_0_r (gets w)), H by (simpl; lia).
    do 2 run_emit. rewrite IH.
    + rewrite !advance_advance. simpl. reflexivity.
    + intros k Hk. simpl. rewrite <- Nat.add_succ_r. apply H. simpl. lia.
Qed.

Lemma make_request_from_gets attempts :
  forall w,
    (gets (snd (make_request_from srv p backoff attempts w))
     <= gets w + length attempts)%nat.
Proof.
  induction attempts as [|a attempts IH]; intros w.
  - simpl. lia.
  - simpl make_request_from. run_get.
    assert (Hrest : forall evs,
               (gets (snd (make_request_from srv p backoff attempts
                             (advance 0 evs (advance 1 [EGet p] w))))
                <= gets w + length (a :: attempts))%nat).
    { intros evs. etransitivity; [apply IH|]. simpl. lia. }
    destruct (srv (gets w) p) as [r|msg].
    + destruct (status_code r =? 200); [simpl; lia|].
      destruct (status_code r =? 503); [run_emit; apply Hrest|].
      destruct (status_code r =? 429); [run_emit; simpl; lia|].
      run_emit. apply Hrest.
    + do 2 run_emit. rewrite advance_advance. apply Hrest.
Qed.

Lemma make_request_from_last_answer attempts :
  forall w r,
    fst (make_request_from srv p backoff attempts w) = Ok (Some r) ->
    exists k, (k < length attempts)%nat
              /\ srv (gets w + k)%nat p = Responded r
              /\ gets (snd (make_request_from srv p backoff attempts w))
                 = S (gets w + k).
Proof.
  induction attempts as [|a attempts IH]; intros w r; [done|].
  simpl make_request_from. run_get.
  assert (Hrest : forall evs,
             fst (make_request_from srv p backoff attempts
                    (advance 0 evs (advance 1 [EGet p] w))) = Ok (Some r) ->
             exists k, (k < length (a :: attempts))%nat
                       /\ srv (gets w + k)%nat p = Responded r
                       /\ gets (snd (make_request_from srv p backoff attempts
                                       (advance 0 evs (advance 1 [EGet p] w))))
                          = S (gets w + k)).
  { intros evs Hret. destruct (IH _ _ Hret) as (k & Hk & Hsrv & Hgets).
    exists (S k). simpl in *. rewrite Nat.add_succ_r.
    split; [lia|]. split; [exact Hsrv|]. rewrite Hgets. lia. }
  destruct (srv (gets w) p) as [r0|msg] eqn:Hsrv.
  - destruct (status_code r0 =? 200).
    { simpl. intros [= ->]. exists O. rewrite Nat.add_0_r. simpl. auto with lia. }
    destruct (status_code r0 =? 503); [run_emit; apply Hrest|].
    destruct (status_code r0 =? 429); [run_emit; done|].
    run_emit. apply Hrest.
  - do 2 run_emit. rewrite advance_advance. apply Hrest.
Qed.
End MakeRequestFurther.

(** X1: an endpoint that answers every attempt with the same response of a
    status other than 200, 503 and 429 is asked [retries] times in a row:
    each GET is followed by the error message and by no sleep, and
    [make_request] ends with "Max retries exceeded." and [None]. *)
Theorem make_request_other_status_no_backoff :
  forall srv p retries backoff w r,
    status_code r <> 200 -> status_code r <> 503 -> status_code r <> 429 ->
    (forall k, (k < Z.to_nat retries)%nat -> srv (gets w + k)%nat p = Responded r) ->
    make_request srv p retries backoff w
    = (Ok None,
       advance (Z.to_nat retries)
         (refused_events p r (Py.range 0 retries)
          ++ [EPrint "Max retries exceeded."]) w).
Proof.
  intros srv p retries backoff w r H200 H503 H429 H.
  unfold make_request.
  rewrite (make_request_from_refused srv p backoff r _ H200 H503 H429).
  - by rewrite range_length, Z.sub_0_r.
  - by rewrite range_length, Z.sub_0_r.
Qed.

(** X2: when every GET raises a [RequestException], each of the [retries]
    attempts prints the error and sleeps [backoff^attempt] seconds, and
    [make_request] ends with "Max retries exceeded." and [None]: the
    exception does not leave the function. *)
Theorem make_request_exceptions_backoff :
  forall srv p retries backoff w msg,
    (forall k, (k < Z.to_nat retries)%nat ->
               srv (gets w + k)%nat p = RequestException msg) ->
    make_request srv p retries backoff w
    = (Ok None,
       advance (Z.to_nat retries)
         (exception_events p msg backoff (Py.range 0 retries)
          ++ [EPrint "Max retries exceeded."]) w).
Proof.
  intros srv p retries backoff w msg H.
  unfold make_request. rewrite (make_request_from_exceptions srv p backoff msg).
  - by rewrite range_length, Z.sub_0_r.
  - by rewrite range_length, Z.sub_0_r.
Qed.

(** X3: whatever the endpoint does, [make_request] issues at most [retries]
    GETs (none when [retries <= 0]) and leaves the working directory and
    the files as they were. *)
Theorem make_request_at_most_retries_gets :
  forall srv p retries backoff w,
    (gets (snd (make_request srv p retries backoff w))
     <= gets w + Z.to_nat retries)%nat
    /\ extends w (snd (make_request srv p retries backoff w)).
Proof.
  intros srv p retries backoff w. split.
  - unfold make_request.
    etransitivity; [apply make_request_from_gets|].
    by rewrite range_length, Z.sub_0_r.
  - apply Extends_make_request_from.
Qed.

(** X4: a response returned by [make_request] is the endpoint's answer to
    the last GET the call made, and that GET is one of the first [retries]
    of the call. *)
Theorem make_request_returns_last_answer :
  forall srv p retries backoff w r,
    fst (make_request srv p retries backoff w) = Ok (Some r) ->
    exists k, (k < Z.to_nat retries)%nat
              /\ srv (gets w + k)%nat p = Responded r
              /\ gets (snd (make_request srv p retries backoff w))
                 = S (gets w + k).
Proof.
  intros srv p retries backoff w r Hret.
  destruct (make_request_from_last_answer srv p backoff _ _ _ Hret)
    as (k & Hk & Hsrv & Hgets).
  exists k. by rewrite range_length, Z.sub_0_r in Hk.
Qed.

(** X5: after [n] answers of status 503 ([n < retries]) and then a 200,
    [make_request] has made [n + 1] GETs, has slept [backoff^a] after
    attempt [a] for [a = 0 .. n - 1], and returns the 200 response. *)
Theorem make_request_503_then_200 :
  forall srv p retries backoff w n r,
    0 <= n < retries ->
    (forall k, (k < Z.to_nat n)%nat -> status_of (srv (gets w + k)%nat p) = Some 503) ->
    srv (gets w + Z.to_nat n)%nat p = Responded r ->
    status_code r = 200 ->
    make_request srv p retries backoff w
    = (Ok (Some r),
       advance (S (Z.to_nat n))
         (retry_events p backoff (Py.range 0 n) ++ [EGet p]) w).
Proof.
  intros srv p retries backoff w n r Hn H503 Hsrv H200.
  unfold make_request.
  rewrite (range_app 0 n retries) by lia.
  rewrite make_request_from_503 by (by rewrite range_length, Z.sub_0_r).
  rewrite range_length, Z.sub_0_r.
  rewrite (range_cons n) by lia.
  simpl make_request_from. run_get.
  change (gets (advance (Z.to_nat n) _ w)) with (Z.to_nat n + gets w)%nat.
  rewrite Nat.add_comm, Hsrv, H200. simpl.
  unfold ret. rewrite advance_advance. do 2 f_equal. lia.
Qed.

Lemma make_request_other_status_no_backoff_witness :
  make_request failing_server january_2020 2 2 w0
  = (Ok None,
     advance 2 [EGet january_2020;
                EPrint "Error with status code 500: internal error";
                EGet january_2020;
                EPrint "Error with status code 500: internal error";
                EPrint "Max retries exceeded."] w0).
Proof.
  apply (make_request_other_status_no_backoff failing_server january_2020 2 2 w0
           {| status_code := 500; text := "internal error"; json := no_payload |});
    [discriminate | discriminate | discriminate | reflexivity].
Defined.

Lemma make_request_exceptions_backoff_witness :
  make_request unreachable_server january_2020 3 2 w0
  = (Ok None,
     advance 3 [EGet january_2020; EPrint "Request error: connection refused";
                ESleep (inject_Z 1);
                EGet january_2020; EPrint "Request error: connection refused";
                ESleep (inject_Z 2);
                EGet january_2020; EPrint "Request error: connection refused";
                ESleep (inject_Z 4);
                EPrint "Max retries exceeded."] w0).
Proof.
  apply (make_request_exceptions_backoff unreachable_server january_2020 3 2 w0
           "connection refused").
  reflexivity.
Defined.

Lemma make_request_returns_last_answer_witness :
  exists k, (k < 5)%nat
            /\ flaky_server (0 + k)%nat january_2020 = Responded ok_without_data
            /\ gets (snd (make_request flaky_server january_2020 5 2 w0))
               = S (0 + k).
Proof.
  apply (make_request_returns_last_answer flaky_server january_2020 5 2 w0
           ok_without_data).
  reflexivity.
Defined.

Lemma make_request_503_then_200_witness :
  make_request flaky_server january_2020 5 2 w0
  = (Ok (Some ok_without_data),
     advance 3 [EGet january_2020; ESleep (inject_Z 1);
                EGet january_2020; ESleep (inject_Z 2);
                EGet january_2020] w0).
Proof.
  apply (make_request_503_then_200 flaky_server january_2020 5 2 w0 2
           ok_without_data);
    [lia | | reflexivity | reflexivity].
  intros [|[|k]] Hk; [reflexivity | reflexivity | simpl in Hk; lia].
Defined.

(** ** get_temp_vals_by_dates, further *)

Section PagingRecords.
Variables (total : Z) (page : Z -> list ObservationRecord).
Variables (start end_ : string).

Lemma paging_run_records k :
  forall o results w,
    (forall j, 0 <= j < Z.of_nat k -> o + 1000 * j + 1000 < total) ->
    o + 1000 * Z.of_nat k + 1000 >= total ->
    fst (pagination_loop (S k) (paging_server total page) start end_
           (request_at start end_ o) results w)
    = Ok (results ++ pages_from page o (S k)).
Proof.
  induction k as [|k IH]; intros o results w Hmore Hlast.
  - rewrite pagination_loop_last by lia.
    unfold pages_from. simpl. by rewrite Z.add_0_r, app_nil_r.
  - rewrite pagination_loop_more by (specialize (Hmore 0); lia).
    rewrite IH.
    + unfold pages_from.
      rewrite <- (cons_seq (S k) 0), <- (seq_shift (S k) 0), map_cons, map_map.
      remember (seq 0 (S k)) as later.
      simpl. rewrite <- app_assoc, Z.add_0_r. do 4 f_equal.
      apply map_ext. intros i. f_equal. lia.
    + intros j Hj. specialize (Hmore (j + 1) ltac:(lia)). lia.
    + lia.
Qed.

Lemma paging_records w :
  let n := Z.to_nat (Z.max 1 (ceil_div (total - 1) 1000)) in
  forall fuel, (n <= fuel)%nat ->
    fst (get_temp_vals_by_dates fuel (paging_server total page) start end_ w)
    = Ok (pages_from page 1 n).
Proof.
  intros n fuel Hfuel.
  assert (exists k, n = S k) as [k Hk] by (exists (Nat.pred n); lia).
  assert (Hrun : fst (pagination_loop (S k) (paging_server total page) start end_
                        (request_at start end_ 1) [] w)
                 = Ok ([] ++ pages_from page 1 (S k))).
  { apply paging_run_records.
    - subst n. unfold ceil_div in Hk. intros j Hj. Z.div_mod_to_equations. lia.
    - subst n. unfold ceil_div in Hk. Z.div_mod_to_equations. lia. }
  unfold get_temp_vals_by_dates. rewrite Hk in Hfuel |- *.
  destruct (pagination_loop (S k) (paging_server total page) start end_
              (request_at start end_ 1) [] w) as [res w'] eqn:Hloop.
  simpl in Hrun. subst res.
  by erewrite pagination_loop_fuel_mono by (done || exact Hloop).
Qed.
End PagingRecords.

Lemma take_pages (data : list ObservationRecord) n :
  pages_from (fun o => firstn 1000 (skipn (Z.to_nat (o - 1)) data)) 1 n
  = firstn (1000 * n) data.
Proof.
  unfold pages_from. induction n as [|n IH]; [done|].
  rewrite seq_S, map_app, concat_app, IH. simpl. rewrite app_nil_r.
  replace (Z.to_nat (1 + 1000 * Z.of_nat n - 1)) with (1000 * n)%nat by lia.
  rewrite take_take_drop. f_equal. lia.
Qed.

Lemma paging_full_run total page start end_ k :
  forall o results w,
    (forall j, 0 <= j < Z.of_nat k -> o + 1000 * j + 1000 < total) ->
    o + 1000 * Z.of_nat k + 1000 >= total ->
    pagination_loop (S k) (paging_server total page) start end_
      (request_at start end_ o) results w
    = (Ok (results ++ pages_from page o (S k)),
       advance (S k) (paging_events start end_ total page o k results) w).
Proof.
  induction k as [|k IH]; intros o results w Hmore Hlast.
  - rewrite pagination_loop_last by lia.
    unfold pages_from. simpl. by rewrite Z.add_0_r, app_nil_r.
  - rewrite pagination_loop_more by (specialize (Hmore 0); lia).
    rewrite IH.
    + rewrite advance_advance. do 2 f_equal.
      unfold pages_from.
      rewrite <- (cons_seq (S k) 0), <- (seq_shift (S k) 0), map_cons, map_map.
      remember (seq 0 (S k)) as later.
      simpl. rewrite <- app_assoc, Z.add_0_r. do 3 f_equal.
      apply map_ext. intros i. f_equal. lia.
    + intros j Hj. specialize (Hmore (j + 1) ltac:(lia)). lia.
    + lia.
Qed.

(** X6: the whole run against an endpoint that pages faithfully.  With
    [n = max 1 (ceil ((total - 1) / 1000))], [get_temp_vals_by_dates]
    returns the pages at the offsets 1, 1001, 2001, ... concatenated in the
    order of the requests and nothing else; it makes [n] GETs, prints the
    progress of each page, sleeps 0.2 s after every page but the last, and
    prints the head of the records once at the end. *)
Theorem pagination_run_on_faithful_endpoint :
  forall total page start end_ w fuel,
    (Z.to_nat (Z.max 1 (ceil_div (total - 1) 1000)) <= fuel)%nat ->
    get_temp_vals_by_dates fuel (paging_server total page) start end_ w
    = (Ok (pages_from page 1 (Z.to_nat (Z.max 1 (ceil_div (total - 1) 1000)))),
       advance (Z.to_nat (Z.max 1 (ceil_div (total - 1) 1000)))
         (paging_events start end_ total page 1
            (Nat.pred (Z.to_nat (Z.max 1 (ceil_div (total - 1) 1000)))) []) w).
Proof.
  intros total page start end_ w fuel. generalize (eq_refl (ceil_div (total - 1) 1000)).
  unfold ceil_div at 2. intros Hc.
  remember (Z.to_nat (Z.max 1 (ceil_div (total - 1) 1000))) as n eqn:Hn.
  intros Hfuel.
  assert (exists k, n = S k) as [k Hk] by (exists (Nat.pred n); lia).
  rewrite Hk in Hfuel |- *. simpl Nat.pred.
  unfold get_temp_vals_by_dates.
  eapply pagination_loop_fuel_mono; [exact Hfuel| |done].
  change (initial_params start end_) with (request_at start end_ 1).
  change (pages_from page 1 (S k)) with ([] ++ pages_from page 1 (S k)).
  apply paging_full_run.
  - intros j Hj. rewrite Hc in Hn. Z.div_mod_to_equations. lia.
  - rewrite Hc in Hn. Z.div_mod_to_equations. lia.
Qed.

Lemma pagination_run_on_faithful_endpoint_witness :
  get_temp_vals_by_dates 3 (paging_server 1500 (fun _ => [one_record]))
    "2020-01-01" "2020-01-31" w0
  = (Ok [one_record; one_record],
     advance 2
       [EGet (request_at "2020-01-01" "2020-01-31" 1);
        EPrint "had a valid request"; EPrint "  - 2 / 1500 records";
        ESleep (1 # 5);
        EGet (request_at "2020-01-01" "2020-01-31" 1001);
        EPrint "had a valid request"; EPrint "  - 1002 / 1500 records";
        EPrintHead [one_record; one_record]] w0).
Proof.
  apply (pagination_run_on_faithful_endpoint 1500 (fun _ => [one_record])
           "2020-01-01" "2020-01-31" w0 3).
  vm_compute. lia.
Defined.

(** X7: against a faithful endpoint over the records [data], the paginated
    fetch returns all of [data], in order and without duplicates, provided
    the number of records is not 1 modulo 1000. *)
Theorem pagination_fetches_whole_dataset :
  forall data start end_ w fuel,
    Z.of_nat (length data) mod 1000 <> 1 ->
    (Z.to_nat (Z.max 1 (ceil_div (Z.of_nat (length data)) 1000)) <= fuel)%nat ->
    fst (get_temp_vals_by_dates fuel (dataset_server data) start end_ w) = Ok data.
Proof.
  intros data start end_ w fuel Hmod Hfuel.
  unfold dataset_server. rewrite paging_records.
  - rewrite take_pages. f_equal. apply take_ge.
    unfold ceil_div. Z.div_mod_to_equations. lia.
  - etransitivity; [|exact Hfuel].
    unfold ceil_div. Z.div_mod_to_equations. lia.
Qed.

Lemma pagination_fetches_whole_dataset_witness :
  fst (get_temp_vals_by_dates 3 (dataset_server (repeat one_record 2500))
         "2020-01-01" "2020-01-31" w0)
  = Ok (repeat one_record 2500).
Proof.
  apply (pagination_fetches_whole_dataset (repeat one_record 2500)
           "2020-01-01" "2020-01-31" w0 3).
  - vm_compute. discriminate.
  - vm_compute. lia.
Defined.

Lemma pagination_loop_never_ends srv start end_ :
  (forall n p, exists r, srv n p = Responded r /\ status_code r = 200
                         /\ reports_more r) ->
  forall fuel p results w,
    fst (pagination_loop fuel srv start end_ p results w) = OutOfFuel
    /\ gets (snd (pagination_loop fuel srv start end_ p results w))
       = (gets w + fuel)%nat.
Proof.
  intros Hsrv. induction fuel as [|fuel IH]; intros p results w.
  - simpl. split; [done|lia].
  - destruct (Hsrv (gets w) p) as (r & Hr & H200 & Hmore).
    simpl pagination_loop.
    erewrite bind_Ok by (by eapply make_request_200).
    cbv beta iota. rewrite H200. simpl. do 2 run_emit.
    unfold reports_more, resultset_of in Hmore.
    destruct (_ >=? _) eqn:E; [lia|].
    run_emit.
    match goal with
    | |- context [pagination_loop fuel srv start end_ ?p' ?res' ?w'] =>
        destruct (IH p' res' w') as [-> ->]
    end.
    split; [done|]. simpl. lia.
Qed.

(** X8: the loop has no bound of its own.  Against an endpoint whose every
    reply has status 200 and reports offset + limit below the count (for
    instance one that leaves the limit out of its metadata),
    [get_temp_vals_by_dates] never returns: whatever the fuel, the run uses
    it up, with one GET per unit. *)
Theorem pagination_never_ends_when_more_is_reported :
  forall srv,
    (forall n p, exists r, srv n p = Responded r /\ status_code r = 200
                           /\ reports_more r) ->
    forall fuel start end_ w,
      fst (get_temp_vals_by_dates fuel srv start end_ w) = OutOfFuel
      /\ gets (snd (get_temp_vals_by_dates fuel srv start end_ w))
         = (gets w + fuel)%nat.
Proof.
  intros srv Hsrv fuel start end_ w. by apply pagination_loop_never_ends.
Qed.

Lemma pagination_never_ends_when_more_is_reported_witness :
  fst (get_temp_vals_by_dates 7 no_limit_server "2020-01-01" "2020-01-31" w0)
  = OutOfFuel
  /\ gets (snd (get_temp_vals_by_dates 7 no_limit_server
                  "2020-01-01" "2020-01-31" w0))
     = 7%nat.
Proof.
  apply (pagination_never_ends_when_more_is_reported no_limit_server).
  intros n p. eexists. split; [reflexivity|]. split; [reflexivity|].
  vm_compute. reflexivity.
Defined.

(** X9: a 200 reply without result-set metadata ends the fetch at once:
    offset, limit and count default to 0, so the first page is taken for
    the last, and its records (none when [results] is missing as well) are
    returned after a single request. *)
Theorem pagination_without_metadata_is_one_page :
  forall srv start end_ w r fuel,
    srv (gets w) (initial_params start end_) = Responded r ->
    status_code r = 200 ->
    p_resultset (json r) = None ->
    get_temp_vals_by_dates (S fuel) srv start end_ w
    = (Ok (default [] (p_results (json r))),
       advance 1 [EGet (initial_params start end_);
                  EPrint "had a valid request";
                  EPrint (progress_message 0
                            (Z.of_nat (length (default [] (p_results (json r))))) 0);
                  EPrintHead (firstn 5 (default [] (p_results (json r))))] w).
Proof.
  intros srv start end_ w r fuel Hsrv H200 Hmeta.
  unfold get_temp_vals_by_dates. simpl pagination_loop.
  erewrite bind_Ok by (by eapply make_request_200).
  cbv beta iota. rewrite H200, Hmeta. simpl. do 3 run_emit.
  unfold ret. by rewrite !advance_advance.
Qed.

Lemma pagination_without_metadata_is_one_page_witness :
  get_temp_vals_by_dates 1 empty_server "2020-01-01" "2020-01-31" w0
  = (Ok [],
     advance 1 [EGet january_2020; EPrint "had a valid request";
                EPrint "  - 0 / 0 records"; EPrintHead []] w0).
Proof.
  apply (pagination_without_metadata_is_one_page empty_server
           "2020-01-01" "2020-01-31" w0 ok_without_data 0);
    reflexivity.
Defined.

(** ** fetch_year, further *)

Lemma tag_year_tagged year df :
  Forall (fun r => row_year r = year) (tag_year year df).
Proof. unfold tag_year. apply Forall_map. by apply Forall_forall. Qed.

Lemma fetch_months_tagged fuel srv year months :
  forall dfs w,
    Forall (Forall (fun r => row_year r = year)) dfs ->
    match fst (fetch_months fuel srv year months dfs w) with
    | Ok res => Forall (Forall (fun r => row_year r = year)) res
    | _ => True
    end.
Proof.
  induction months as [|[start end_] months IH]; intros dfs w Hdfs; [done|].
  simpl. unfold bind at 1.
  destruct (get_temp_vals_by_dates fuel srv start end_ w) as [[df|e|] w1];
    [|done..].
  run_emit. apply IH.
  destruct (negb (empty df)); [|done].
  apply Forall_app. split; [done|].
  constructor; [apply tag_year_tagged|constructor].
Qed.

Lemma fetch_year_tagged fuel srv year w df :
  fst (fetch_year fuel srv year w) = Ok df ->
  Forall (fun r => row_year r = year) df.
Proof.
  unfold fetch_year. rewrite generate_date_ranges_eq.
  erewrite bind_Ok by reflexivity.
  unfold bind at 1.
  match goal with
  | |- context [fetch_months fuel srv year ?months [] w] =>
      pose proof (fetch_months_tagged fuel srv year months [] w
                    ltac:(constructor)) as Htag;
      destruct (fetch_months fuel srv year months [] w) as [[dfs|e|] w1]
  end; [|done..].
  simpl in Htag.
  destruct (negb (empty dfs)).
  - simpl. intros [= <-]. by apply Forall_concat.
  - run_emit. simpl. by intros [= <-].
Qed.

(** X10: every row of a table returned by [fetch_year] carries the year
    that was asked for in its [year] column, whatever the endpoint sent. *)
Theorem fetch_year_rows_carry_the_year :
  forall fuel srv year w df,
    fst (fetch_year fuel srv year w) = Ok df ->
    Forall (fun r => row_year r = year) df.
Proof. exact fetch_year_tagged. Qed.

Lemma fetch_year_rows_carry_the_year_witness :
  Forall (fun r => row_year r = 2020)
    (repeat {| row_obs := one_record; row_year := 2020 |} 12).
Proof.
  apply (fetch_year_rows_carry_the_year 1 one_record_server 2020 w0).
  vm_compute. reflexivity.
Defined.

Section SinglePage.
Variables (total : Z) (page : Z -> list ObservationRecord).
Variables (fuel : nat) (year : Z).
Hypothesis single_page : total <= 1001.

Lemma get_temp_vals_single_page start end_ w :
  get_temp_vals_by_dates (S fuel) (paging_server total page) start end_ w
  = (Ok (page 1),
     advance 1 (page_events start end_ 1 total (page 1)
                ++ [EPrintHead (firstn 5 (page 1))]) w).
Proof.
  unfold get_temp_vals_by_dates.
  change (initial_params start end_) with (request_at start end_ 1).
  by rewrite pagination_loop_last by lia.
Qed.

Lemma fetch_months_single_page months :
  forall dfs w,
    fetch_months (S fuel) (paging_server total page) year months dfs w
    = (Ok (dfs ++ (if empty (page 1) then []
                   else map (fun _ => tag_year year (page 1)) months)),
       advance (length months) (flat_map (month_events total (page 1)) months) w).
Proof.
  induction months as [|[start end_] months IH]; intros dfs w.
  - simpl. unfold ret. rewrite advance_nil. by destruct (empty (page 1));
      rewrite app_nil_r.
  - simpl fetch_months.
    erewrite bind_Ok by apply get_temp_vals_single_page.
    run_emit. rewrite IH, !advance_advance.
    do 2 f_equal. destruct (empty (page 1)); simpl; [done|].
    by rewrite <- app_assoc.
Qed.
End SinglePage.

(** X11: against a faithful endpoint that has at most 1001 records per
    range, [fetch_year] makes exactly twelve requests, one per month of
    [generate_date_ranges] in calendar order and each at offset 1, sleeps
    half a second after each month, and returns the twelve first pages
    tagged with the year, one after the other; when the pages are empty it
    prints "No data return for" the year and returns the empty table. *)
Theorem fetch_year_one_request_per_month :
  forall total page fuel year w,
    total <= 1001 ->
    exists ranges,
      generate_date_ranges year = Ok ranges
      /\ fetch_year (S fuel) (paging_server total page) year w
         = (Ok (concat (map (fun _ => tag_year year (page 1)) ranges)),
            advance 12
              (flat_map (month_events total (page 1)) ranges
               ++ (if empty (page 1)
                   then [EPrint ("No data return for " +:+ Py.str year)]
                   else [])) w).
Proof.
  intros total page fuel year w Hsingle.
  eexists. split; [apply generate_date_ranges_eq|].
  unfold fetch_year. rewrite generate_date_ranges_eq.
  erewrite bind_Ok by reflexivity.
  erewrite bind_Ok by (by apply fetch_months_single_page).
  destruct (page 1) as [|o batch] eqn:Hpage.
  - simpl. run_emit. unfold ret.
    by rewrite advance_advance.
  - simpl. unfold ret. by rewrite app_nil_r.
Qed.

Lemma fetch_year_one_request_per_month_witness :
  fst (fetch_year 1 one_record_server 2020 w0)
  = Ok (repeat {| row_obs := one_record; row_year := 2020 |} 12)
  /\ gets (snd (fetch_year 1 one_record_server 2020 w0)) = 12%nat.
Proof.
  destruct (fetch_year_one_request_per_month 1 (fun _ => [one_record]) 0 2020 w0)
    as (ranges & Hranges & Hrun); [lia|].
  vm_compute in Hranges. injection Hranges as <-.
  unfold one_record_server. rewrite Hrun. split; reflexivity.
Defined.

(** ** extract, further *)

Lemma range_In y a b : In y (Py.range a b) -> a <= y < b.
Proof.
  unfold Py.range. rewrite in_map_iff. intros (i & <- & Hi).
  apply in_seq in Hi. lia.
Qed.

Lemma fetch_all_tagged fuel srv years :
  forall w tables,
    fst (fetch_all fuel srv years w) = Ok tables ->
    Forall2 (fun year df => Forall (fun r => row_year r = year) df) years tables.
Proof.
  induction years as [|year years IH]; intros w tables.
  - simpl. intros [= <-]. constructor.
  - simpl. unfold bind at 1.
    pose proof (fetch_year_tagged fuel srv year w) as Hyear.
    destruct (fetch_year fuel srv year w) as [[df|e|] w1]; [|done..].
    unfold bind. specialize (IH w1).
    destruct (fetch_all fuel srv years w1) as [[dfs|e|] w2]; [|done..].
    simpl. intros [= <-]. constructor; [by apply Hyear|by apply IH].
Qed.

Lemma kept_rows_in_span (P : Z -> Prop) years (tables : list (list row)) :
  Forall2 (fun year df => Forall (fun r => row_year r = year) df) years tables ->
  (forall year, In year years -> P year) ->
  Forall (fun r => P (row_year r)) (concat (List.filter non_empty tables)).
Proof.
  induction 1 as [|year df years tables Hdf _ IH]; intros HP; [constructor|].
  assert (Hrest : Forall (fun r => P (row_year r))
                    (concat (List.filter non_empty tables)))
    by (apply IH; intros; apply HP; by right).
  simpl. destruct (non_empty df); [|done].
  simpl. apply Forall_app. split; [|done].
  eapply Forall_impl; [exact Hdf|]. simpl. intros r ->. apply HP. by left.
Qed.

(** X12: every row of the table that [extract] returns is tagged with a
    year of the span: [start_year <= year < end_year]. *)
Theorem extract_rows_are_in_span :
  forall fuel srv start_year end_year w df,
    fst (extract fuel srv start_year end_year w) = Ok (Some df) ->
    Forall (fun r => start_year <= row_year r < end_year) df.
Proof.
  intros fuel srv start_year end_year w df. rewrite extract_fetch_all.
  pose proof (fetch_all_tagged fuel srv (Py.range start_year end_year) w) as Htag.
  destruct (fetch_all fuel srv (Py.range start_year end_year) w)
    as [[tables|e|] w1]; [|done..].
  specialize (Htag tables eq_refl).
  pose proof (kept_rows_in_span (fun y => start_year <= y < end_year) _ _ Htag
                (fun y => range_In y start_year end_year)) as Hrows.
  destruct (List.filter non_empty tables) as [|t ts]; [done|].
  simpl fst. by intros [= <-].
Qed.

Lemma extract_rows_are_in_span_witness :
  Forall (fun r => 2020 <= row_year r < 2022) (concat two_years_of_one_record).
Proof.
  apply (extract_rows_are_in_span 1 one_record_server 2020 2022 w0).
  vm_compute. reflexivity.
Defined.

Lemma extract_file_effect :
  forall fuel srv start_year end_year w,
    cwd (snd (extract fuel srv start_year end_year w)) = cwd w
    /\ script_file (snd (extract fuel srv start_year end_year w)) = script_file w
    /\ files (snd (extract fuel srv start_year end_year w))
       = match fst (extract fuel srv start_year end_year w) with
         | Ok (Some df) => <[Py.abspath (cwd w) output_csv_name := df]> (files w)
         | _ => files w
         end.
Proof.
  intros fuel srv start_year end_year w. rewrite extract_fetch_all.
  destruct (Extends_fetch_all fuel srv (Py.range start_year end_year) w)
    as (Hcwd & Hscript & Hfiles & _).
  destruct (fetch_all fuel srv (Py.range start_year end_year) w)
    as [[tables|e|] w1]; simpl in Hcwd, Hscript, Hfiles; [|done..].
  destruct (List.filter non_empty tables) as [|t ts]; [done|].
  simpl. by rewrite Hcwd, Hfiles.
Qed.

(** X13: [extract] changes nothing in the file system but the one output
    file: when it returns a table, the files afterwards are the files
    before with that table at [output_csv_name] (resolved against the
    working directory); when it returns [None], raises or never returns,
    no file is written at all.  The working directory is never changed. *)
Theorem extract_writes_only_the_output_file :
  forall fuel srv start_year end_year w,
    cwd (snd (extract fuel srv start_year end_year w)) = cwd w
    /\ script_file (snd (extract fuel srv start_year end_year w)) = script_file w
    /\ files (snd (extract fuel srv start_year end_year w))
       = match fst (extract fuel srv start_year end_year w) with
         | Ok (Some df) => <[Py.abspath (cwd w) output_csv_name := df]> (files w)
         | _ => files w
         end.
Proof. exact extract_file_effect. Qed.

(** ** The driver, further *)

Lemma startup_with_checkpoint fuel srv w df :
  files w !! checkpoint_path w = Some df ->
  startup fuel srv w = (Ok (Some df), advance 0 checkpoint_logs w).
Proof.
  intros Hpresent. unfold startup. run_emit.
  erewrite bind_Ok by reflexivity.
  erewrite bind_Ok by reflexivity.
  change (files (advance 0 _ w) !! _) with (files w !! checkpoint_path w).
  rewrite Hpresent, bool_decide_true by done.
  cbn [negb]. run_emit.
  unfold read_csv, bind.
  change (files (advance 0 _ (advance 0 _ w)) !! _)
    with (files w !! checkpoint_path w).
  rewrite Hpresent. unfold ret. by rewrite advance_advance.
Qed.

(** X14: when a file is present at the checkpoint path, startup loads it
    and asks the endpoint nothing: the table of the file is returned, no
    GET is made, and only the two log lines are added. *)
Theorem startup_loads_the_checkpoint :
  forall fuel srv w df,
    files w !! checkpoint_path w = Some df ->
    startup fuel srv w = (Ok (Some df), advance 0 checkpoint_logs w).
Proof. exact startup_with_checkpoint. Qed.

Lemma startup_loads_the_checkpoint_witness :
  startup 0 failing_server w_checkpointed
  = (Ok (Some tmax_twice), advance 0 checkpoint_logs w_checkpointed).
Proof.
  apply (startup_loads_the_checkpoint 0 failing_server w_checkpointed tmax_twice).
  vm_compute. reflexivity.
Defined.

(** X15: the checkpoint round trip holds exactly where the two paths
    coincide.  If the output file name, resolved against the working
    directory, is the checkpoint path (the script is run from inside its
    [data] directory), then after a first startup that extracted a table,
    every later startup returns that same table without a single GET. *)
Theorem checkpoint_round_trip_in_data_directory :
  forall fuel srv w df fuel' srv',
    Py.abspath (cwd w) output_csv_name = checkpoint_path w ->
    files w !! checkpoint_path w = None ->
    fst (startup fuel srv w) = Ok (Some df) ->
    startup fuel' srv' (snd (startup fuel srv w))
    = (Ok (Some df), advance 0 checkpoint_logs (snd (startup fuel srv w))).
Proof.
  intros fuel srv w df fuel' srv' Hsame Habsent Hrun.
  apply startup_with_checkpoint.
  rewrite startup_without_checkpoint in Hrun |- * by done.
  destruct (extract_file_effect fuel srv 1974 2024
              (advance 0 startup_logs w)) as (Hcwd & Hscript & Hfiles).
  rewrite Hrun in Hfiles.
  unfold checkpoint_path at 1. rewrite Hcwd, Hscript, Hfiles.
  change (cwd (advance 0 startup_logs w)) with (cwd w).
  change (script_file (advance 0 startup_logs w)) with (script_file w).
  fold (checkpoint_path w). rewrite Hsame. apply lookup_insert_eq.
Qed.

Lemma checkpoint_round_trip_in_data_directory_witness :
  fst (startup 0 failing_server (snd (startup 1 one_record_server w_data)))
  = Ok (Some fifty_years_of_one_record).
Proof.
  rewrite (checkpoint_round_trip_in_data_directory
             1 one_record_server w_data fifty_years_of_one_record
             0 failing_server).
  - reflexivity.
  - vm_compute. reflexivity.
  - vm_compute. reflexivity.
  - vm_compute. reflexivity.
Defined.

Lemma bind_Raise {A B} (m : M A) (k : A -> M B) w e w' :
  m w = (Raise e, w') -> bind m k w = (Raise e, w').
Proof. intros H. unfold bind. by rewrite H. Qed.

Lemma make_request_429 srv p retries backoff w r :
  1 <= retries ->
  srv (gets w) p = Responded r ->
  status_code r = 429 ->
  make_request srv p retries backoff w
  = (Ok None, advance 1 [EGet p; EPrint (error_message r)] w).
Proof.
  intros Hretries Hsrv H429.
  unfold make_request. rewrite range_cons by lia.
  simpl make_request_from. run_get.
  rewrite Hsrv, H429. simpl. run_emit.
  unfold ret. by rewrite advance_advance.
Qed.

(** X16: nothing between [make_request] and the driver catches an
    exception.  If the endpoint answers the first request of a non-empty
    span with status 429, [extract] raises [AttributeError] after that one
    GET: no further month or year is tried and no file is written. *)
Theorem extract_raises_when_first_request_is_refused :
  forall fuel srv start_year end_year w r,
    start_year < end_year ->
    (forall p, srv (gets w) p = Responded r) ->
    status_code r = 429 ->
    extract (S fuel) srv start_year end_year w
    = (Raise AttributeError,
       advance 1 [EGet (initial_params (first_of_month start_year 1)
                          (date_string start_year 1 31));
                  EPrint (error_message r)] w).
Proof.
  intros fuel srv start_year end_year w r Hspan Hsrv H429.
  unfold extract. rewrite range_cons by done.
  apply bind_Raise. simpl extract_years.
  apply bind_Raise. unfold fetch_year.
  rewrite generate_date_ranges_eq.
  erewrite bind_Ok by reflexivity.
  apply bind_Raise. simpl fetch_months.
  apply bind_Raise. unfold get_temp_vals_by_dates.
  apply pagination_none_raises.
  by apply make_request_429.
Qed.

Lemma extract_raises_when_first_request_is_refused_witness :
  extract 1 (rate_limited_after 0) 1974 2024 w0
  = (Raise AttributeError,
     advance 1 [EGet (initial_params "1974-01-01" "1974-01-31");
                EPrint "Error with status code 429: rate limit exceeded"] w0).
Proof.
  apply (extract_raises_when_first_request_is_refused
           0 (rate_limited_after 0) 1974 2024 w0 too_many_requests);
    [lia | reflexivity | reflexivity].
Defined.

(** ** The pivot, further *)

Lemma first_value_app df more k dt :
  first_value (df ++ more) k dt
  = match first_value df k dt with
    | Some v => Some v
    | None => first_value more k dt
    end.
Proof.
  unfold first_value. rewrite omap_app.
  by destruct (omap _ df).
Qed.

(** X17: every value in the wide table is the value of an input record of
    that date, station, year and datatype: the pivot invents nothing and
    moves no value to another row or column. *)
Theorem pivot_cells_come_from_records :
  forall df k dt v,
    cell (pivot_table df) k dt = Some v ->
    exists r, r ∈ df /\ row_key r = k /\ obs_datatype (row_obs r) = dt
              /\ obs_value (row_obs r) = Some v.
Proof.
  intros df k dt v. rewrite cell_pivot_table. apply first_value_from_row.
Qed.

Lemma pivot_cells_come_from_records_witness :
  exists r, r ∈ tmax_twice
            /\ row_key r = ("2020-01-01", "A", 2020)%string
            /\ obs_datatype (row_obs r) = "TMAX"%string
            /\ obs_value (row_obs r) = Some (5 # 1)%Q.
Proof.
  apply (pivot_cells_come_from_records tmax_twice
           ("2020-01-01", "A", 2020)%string "TMAX" (5 # 1)%Q).
  vm_compute. reflexivity.
Defined.

(** X18: no valued record is lost without trace: the row and column of
    every input record that has a value hold a value in the wide table. *)
Theorem pivot_valued_record_has_cell :
  forall df r v,
    r ∈ df ->
    obs_value (row_obs r) = Some v ->
    is_Some (cell (pivot_table df) (row_key r) (obs_datatype (row_obs r))).
Proof.
  intros df r v Hr Hv. rewrite cell_pivot_table. unfold first_value.
  assert (v ∈ omap (fun r' => if decide (row_key r' = row_key r
                                         /\ obs_datatype (row_obs r')
                                            = obs_datatype (row_obs r))
                              then obs_value (row_obs r') else None) df) as Hin.
  { apply list_elem_of_omap. exists r. split; [done|].
    by rewrite decide_True. }
  destruct (omap _ df); [by apply elem_of_nil in Hin|]. by eexists.
Qed.

Lemma pivot_valued_record_has_cell_witness :
  is_Some (cell (pivot_table tmax_twice) ("2020-01-01", "A", 2020)%string "TMAX").
Proof.
  apply (pivot_valued_record_has_cell tmax_twice
           (reading "2020-01-01" "TMAX" "A" (7 # 1) 2020) (7 # 1)%Q).
  - right. left.
  - reflexivity.
Defined.

(** X19: the pivot of a concatenation is the pivot of the first table,
    completed by the pivot of the second where the first has no value: rows
    appended later (another year, a second copy of the file) never change
    a cell that is already filled. *)
Theorem pivot_of_concatenation :
  forall df more k dt,
    cell (pivot_table (df ++ more)) k dt
    = match cell (pivot_table df) k dt with
      | Some v => Some v
      | None => cell (pivot_table more) k dt
      end.
Proof. intros. rewrite !cell_pivot_table. apply first_value_app. Qed.

(** X20: a record whose value is null is ignored by the pivot: it neither
    fills its cell nor keeps a later value of the same key out. *)
Theorem pivot_ignores_null_readings :
  forall pre r post k dt,
    obs_value (row_obs r) = None ->
    cell (pivot_table (pre ++ r :: post)) k dt
    = cell (pivot_table (pre ++ post)) k dt.
Proof.
  intros pre r post k dt Hnull. rewrite !cell_pivot_table.
  unfold first_value. rewrite !omap_app. simpl. rewrite Hnull.
  by case_decide.
Qed.

Lemma pivot_ignores_null_readings_witness :
  cell (pivot_table
          ([] ++ {| row_obs := {| obs_date := "2020-01-01"; obs_datatype := "TMAX";
                                  obs_station := "A"; obs_value := None |};
                    row_year := 2020 |} :: tmax_twice))
    ("2020-01-01", "A", 2020)%string "TMAX"
  = cell (pivot_table ([] ++ tmax_twice)) ("2020-01-01", "A", 2020)%string "TMAX".
Proof.
  apply (pivot_ignores_null_readings []
           {| row_obs := {| obs_date := "2020-01-01"; obs_datatype := "TMAX";
                            obs_station := "A"; obs_value := None |};
              row_year := 2020 |}
           tmax_twice ("2020-01-01", "A", 2020)%string "TMAX").
  reflexivity.
Defined.

(** X22: when the year of a record is determined by its date, as it is
    for records fetched month by month from an endpoint that answers within
    the requested range, the year adds nothing to the key: the wide table
    then holds at most one value per date, station and datatype. *)
Theorem pivot_one_value_per_date_when_year_follows_date :
  forall df,
    (forall r1 r2, r1 ∈ df -> r2 ∈ df ->
                   obs_date (row_obs r1) = obs_date (row_obs r2) ->
                   row_year r1 = row_year r2) ->
    one_value_per_date_station_datatype (pivot_table df).
Proof. exact pivot_one_value_when_year_follows_date. Qed.

Lemma pivot_one_value_per_date_when_year_follows_date_witness :
  one_value_per_date_station_datatype (pivot_table tmax_twice).
Proof.
  apply (pivot_one_value_per_date_when_year_follows_date tmax_twice).
  intros r1 r2 H1 H2 _.
  apply list_elem_of_In in H1, H2. simpl in H1, H2.
  destruct H1 as [<-|[<-|[]]], H2 as [<-|[<-|[]]]; reflexivity.
Defined.

(** ** extract on an empty span *)

(** X21: on an empty span ([end_year <= start_year]) [extract] asks the
    endpoint nothing and writes nothing: it prints "Failed to save data"
    and returns [None], as it does when every year is empty. *)
Theorem extract_empty_span :
  forall fuel srv start_year end_year w,
    end_year <= start_year ->
    extract fuel srv start_year end_year w
    = (Ok None, advance 0 [EPrint "Failed to save data"] w).
Proof.
  intros fuel srv start_year end_year w Hspan.
  unfold extract. rewrite range_nil by done.
  simpl. erewrite bind_Ok by reflexivity. simpl. run_emit. reflexivity.
Qed.

Lemma extract_empty_span_witness :
  extract 1 one_record_server 2024 1974 w0
  = (Ok None, advance 0 [EPrint "Failed to save data"] w0).
Proof.
  apply (extract_empty_span 1 one_record_server 2024 1974 w0). lia.
Defined.
